(** * Exam expiry, remaining days and exam creation

    A shallow embedding of the exam logic of the students application:
    the expired-exam sweep [deleteExpiredExams] and the exam creation route
    of the server's route file, [calculateRemainingDays] and the
    remaining-days cell of [ExamWeek.tsx], and [handleSubmit] of
    [AddExamModal.tsx].

    Time values are milliseconds since the Unix epoch, as in a JavaScript
    [Date]; they are kept as unbounded integers (every value met here lies
    far inside the range in which JavaScript numbers are exact).  The zone
    of the machine running the code is a fixed offset [tz], in milliseconds
    east of UTC, and is a parameter of everything that reads local time. *)

From Stdlib Require Import ZArith List String Ascii Bool Lia.
From Stdlib Require Import DecimalString DecimalPos DecimalZ.
From Stdlib Require Import Permutation Sorted.
Import ListNotations.

Local Open Scope string_scope.
Local Open Scope list_scope.
Local Open Scope Z_scope.

(** ** Dates: the parts of date-fns and date-fns-tz the program calls *)

Module DateFns.

Definition msPerHour : Z := 60 * 60 * 1000.
Definition msPerDay : Z := 24 * msPerHour.

(** A JavaScript [Date]: a time value, or the Invalid Date (time value NaN). *)
Inductive Date : Type :=
| Invalid
| At (ms : Z).

(** A JavaScript number as the program meets it: an integer or NaN. *)
Inductive number : Type :=
| NaN
| Int (n : Z).

Definition isLeapYearIndex (year : Z) : bool :=
  (year mod 400 =? 0) || ((year mod 4 =? 0) && negb (year mod 100 =? 0)).

Definition daysInMonth (year month : Z) : Z :=
  if month =? 2 then (if isLeapYearIndex year then 29 else 28)
  else if (month =? 4) || (month =? 6) || (month =? 9) || (month =? 11) then 30
  else 31.

(** [validateDate] of parseISO, with [month] counted from 1. *)
Definition validateDate (year month day : Z) : bool :=
  (1 <=? month) && (month <=? 12) && (1 <=? day) && (day <=? daysInMonth year month).

(** Day number of a civil date of the proleptic Gregorian calendar, day 0
    being 1970-01-01: what [Date.UTC(year, month - 1, day) / msPerDay] is. *)
Definition daysFromCivil (year month day : Z) : Z :=
  let y := if month <=? 2 then year - 1 else year in
  let era := y / 400 in
  let yoe := y - era * 400 in
  let mp := if month <=? 2 then month + 9 else month - 3 in
  let doy := (153 * mp + 2) / 5 + day - 1 in
  let doe := yoe * 365 + yoe / 4 - yoe / 100 + doy in
  era * 146097 + doe - 719468.

Definition digitOf (c : ascii) : option Z :=
  let n := Z.of_N (N_of_ascii c) in
  if (48 <=? n) && (n <=? 57) then Some (n - 48) else None.

Fixpoint digitsFrom (acc : Z) (cs : list ascii) : option Z :=
  match cs with
  | [] => Some acc
  | c :: cs' =>
      match digitOf c with
      | Some d => digitsFrom (10 * acc + d) cs'
      | None => None
      end
  end.

Definition isDash (c : ascii) : bool := Ascii.eqb c "-"%char.

(** The calendar date written by a string of the form YYYY-MM-DD, when the
    string has that form and names a day that exists. *)
Definition calendarDate (s : string) : option (Z * Z * Z) :=
  match list_ascii_of_string s with
  | [y1; y2; y3; y4; s1; m1; m2; s2; d1; d2] =>
      if isDash s1 && isDash s2 then
        match digitsFrom 0 [y1; y2; y3; y4], digitsFrom 0 [m1; m2], digitsFrom 0 [d1; d2] with
        | Some year, Some month, Some day =>
            if validateDate year month day then Some (year, month, day) else None
        | _, _, _ => None
        end
      else None
  | _ => None
  end.

(** [parseISO] on the extended calendar-date form YYYY-MM-DD, the form in
    which an exam's date is stored and which the form's date input produces.
    A date without a time is midnight of that day in the local zone.  The
    other ISO 8601 forms date-fns reads (basic format, week and ordinal
    dates, a time or zone suffix) are outside this embedding; every string
    it does not read is the Invalid Date, as is every string date-fns
    rejects. *)
Definition parseISO (tz : Z) (argument : string) : Date :=
  match calendarDate argument with
  | Some (year, month, day) => At (daysFromCivil year month day * msPerDay - tz)
  | None => Invalid
  end.

(** [parseISO] with the strings that are not of the form YYYY-MM-DD left
    open: [other] says what the library makes of each of them (the Invalid
    Date, or the time value it reads).  Nothing is assumed of [other], so
    what is proved for every [other] holds for the library as it is. *)
Definition parseISOWith (other : string -> Date) (tz : Z) (argument : string) : Date :=
  match calendarDate argument with
  | Some (year, month, day) => At (daysFromCivil year month day * msPerDay - tz)
  | None => other argument
  end.

(** [setHours(date, hours)]: the local hour is replaced, the local day and
    the minutes, seconds and milliseconds are kept. *)
Definition setHours (tz : Z) (date : Date) (hours : Z) : Date :=
  match date with
  | Invalid => Invalid
  | At t =>
      let local := t + tz in
      At ((local / msPerDay) * msPerDay + hours * msPerHour + local mod msPerHour - tz)
  end.

(** Offset east of UTC of an IANA zone; the table holds the zones the
    program names.  Asia/Riyadh has no daylight saving time. *)
Definition zoneOffset (timeZone : string) : option Z :=
  if String.eqb timeZone "Asia/Riyadh" then Some (3 * msPerHour)
  else if String.eqb timeZone "UTC" then Some 0
  else None.

(** [utcToZonedTime(date, timeZone)]: the [Date] whose local fields read the
    wall clock of [timeZone] at the instant [date]. *)
Definition utcToZonedTime (tz : Z) (date : Date) (timeZone : string) : Date :=
  match date, zoneOffset timeZone with
  | At t, Some offset => At (t + offset - tz)
  | _, _ => Invalid
  end.

(** [isBefore(date, dateToCompare)]: a comparison of time values; false when
    either is NaN. *)
Definition isBefore (date dateToCompare : Date) : bool :=
  match date, dateToCompare with
  | At a, At b => a <? b
  | _, _ => false
  end.

(** [compareLocalAsc] of differenceInDays: the order of the local fields,
    which is the order of the local time values. *)
Definition compareLocalAsc (tz : Z) (dateLeft dateRight : Z) : Z :=
  match (dateLeft + tz) ?= (dateRight + tz) with
  | Lt => -1
  | Eq => 0
  | Gt => 1
  end.

Definition differenceInCalendarDays (tz : Z) (dateLeft dateRight : Z) : Z :=
  (dateLeft + tz) / msPerDay - (dateRight + tz) / msPerDay.

(** [differenceInDays(dateLeft, dateRight)]: the number of full days between
    the two dates, following the steps of the library. *)
Definition differenceInDays (tz : Z) (dateLeft dateRight : Date) : number :=
  match dateLeft, dateRight with
  | At l, At r =>
      let sign := compareLocalAsc tz l r in
      let difference := Z.abs (differenceInCalendarDays tz l r) in
      let shifted := l - sign * difference * msPerDay in
      let isLastDayNotFull :=
        if compareLocalAsc tz shifted r =? - sign then 1 else 0 in
      Int (sign * (difference - isLastDayNotFull))
  | _, _ => NaN
  end.

End DateFns.

Import DateFns.

(** ** The server: storage, the exam creation route and the sweep *)

Module Server.

Record Exam : Type := {
  id : Z;
  subject : string;
  date : string;
  topics : list string
}.

(** The data of an exam before the store gives it an id. *)
Record InsertExam : Type := {
  newSubject : string;
  newDate : string;
  newTopics : list string
}.

(** What a call can throw: the two kinds of failure the program's
    description names.  The store's calls throw [StoreError]; no call made
    by the code below throws [ParseError]. *)
Inductive Thrown : Type :=
| StoreError
| ParseError.

(** Lines written to the console. *)
Inductive LogEntry : Type :=
| LogDeleted (examId : Z)        (* Exam with id .. deleted automatically. *)
| LogSweepError (error : Thrown) (* Error deleting expired exams: .. *)
| LogCreateError (error : Thrown) (* Error creating exam: .. *).

(** What the code does not control: the local zone of the machine, the
    readings of its clock (the k-th [new Date()] of a run reads [clock k]),
    which calls of the store fail, and what [parseISO] makes of a date
    string that is not of the form YYYY-MM-DD. *)
Record Machine : Type := {
  localOffset : Z;
  clock : nat -> Z;
  getExamsFails : bool;
  deleteExamFails : Z -> bool;
  createExamFails : bool;
  otherDates : string -> Date
}.

Record World : Type := {
  store : list Exam;
  console : list LogEntry;
  clockReads : nat
}.

Inductive Outcome (A : Type) : Type :=
| Returned (value : A)
| Threw (error : Thrown).

Arguments Returned {A} value.
Arguments Threw {A} error.

(** Computations that read and change the world and may throw. *)
Definition M (A : Type) : Type := World -> Outcome A * World.

Definition ret {A : Type} (a : A) : M A := fun w => (Returned a, w).

Definition throw {A : Type} (e : Thrown) : M A := fun w => (Threw e, w).

Definition bind {A B : Type} (c : M A) (k : A -> M B) : M B :=
  fun w =>
    match c w with
    | (Returned a, w') => k a w'
    | (Threw e, w') => (Threw e, w')
    end.

Definition tryCatch {A : Type} (body : M A) (handler : Thrown -> M A) : M A :=
  fun w =>
    match body w with
    | (Returned a, w') => (Returned a, w')
    | (Threw e, w') => handler e w'
    end.

Declare Scope js_scope.
Delimit Scope js_scope with js.
Notation "x <- c ;; k" := (bind c (fun x => k))
  (at level 61, c at next level, right associativity) : js_scope.
Notation "c ;;; k" := (bind c (fun _ => k))
  (at level 61, right associativity) : js_scope.
Local Open Scope js_scope.

(** [for (const x of xs) body]. *)
Fixpoint forOf {A : Type} (xs : list A) (body : A -> M unit) : M unit :=
  match xs with
  | [] => ret tt
  | x :: rest => body x ;;; forOf rest body
  end.

Definition consoleWrite (entry : LogEntry) : M unit :=
  fun w =>
    (Returned tt,
     {| store := store w; console := console w ++ [entry]; clockReads := clockReads w |}).

(** The world after one more reading of the clock. *)
Definition tick (w : World) : World :=
  {| store := store w; console := console w; clockReads := S (clockReads w) |}.

Section OnMachine.

Variable m : Machine.

(** [new Date()]. *)
Definition newDateNow : M Date :=
  fun w => (Returned (At (clock m (clockReads w))), tick w).

(** Modelled from the spec: the storage module, which is not among the
    sources.  [getExams] lists the exams and [deleteExam] removes the exam
    of the given id and tells whether there was one; both fail with a
    [StoreError] when the underlying persistence fails, leaving the records
    as they were.  [createExam] gives the new exam an id no stored exam has. *)
Definition getExams : M (list Exam) :=
  fun w => if getExamsFails m then (Threw StoreError, w) else (Returned (store w), w).

Definition hasId (examId : Z) (exam : Exam) : bool := id exam =? examId.

Definition deleteExam (examId : Z) : M bool :=
  fun w =>
    if deleteExamFails m examId then (Threw StoreError, w)
    else
      (Returned (existsb (hasId examId) (store w)),
       {| store := filter (fun exam => negb (hasId examId exam)) (store w);
          console := console w;
          clockReads := clockReads w |}).

Definition nextId (exams : list Exam) : Z :=
  1 + fold_right (fun exam acc => Z.max (id exam) acc) 0 exams.

Definition createExam (data : InsertExam) : M Exam :=
  fun w =>
    if createExamFails m then (Threw StoreError, w)
    else
      let exam := {| id := nextId (store w);
                     subject := newSubject data;
                     date := newDate data;
                     topics := newTopics data |} in
      (Returned exam,
       {| store := store w ++ [exam]; console := console w; clockReads := clockReads w |}).

(** The test of the loop of [deleteExpiredExams], for the clock reading
    [currentTimeUTC]. *)
Definition examExpired (exam : Exam) (currentTimeUTC : Date) : bool :=
  let tz := localOffset m in
  let examDate := parseISOWith (otherDates m) tz (date exam) in
  let examDateTime := setHours tz examDate 10 in
  let saudiArabiaTimeZone := "Asia/Riyadh" in
  let currentTimeSaudiArabia := utcToZonedTime tz currentTimeUTC saudiArabiaTimeZone in
  isBefore examDateTime currentTimeSaudiArabia.

(** The body of the loop of [deleteExpiredExams]. *)
Definition sweepExam (exam : Exam) : M unit :=
  currentTimeUTC <- newDateNow ;;
  if examExpired exam currentTimeUTC then
    deleteExam (id exam) ;;;
    consoleWrite (LogDeleted (id exam))
  else ret tt.

Definition deleteExpiredExams : M unit :=
  tryCatch
    (exams <- getExams ;;
     forOf exams sweepExam)
    (fun error => consoleWrite (LogSweepError error)).

(** The request body of POST /api/exams: each field present or missing. *)
Record ExamBody : Type := {
  bodySubject : option string;
  bodyDate : option string;
  bodyTopics : option (list string)
}.

Inductive Response : Type :=
| Json201 (exam : Exam)
| Json400 (* Invalid exam data *)
| Json500 (* Failed to create exam *).

Definition status (r : Response) : Z :=
  match r with
  | Json201 _ => 201
  | Json400 => 400
  | Json500 => 500
  end.

(** The handler of POST /api/exams, for a schema [safeParse]. *)
Definition postExam (safeParse : ExamBody -> option InsertExam) (body : ExamBody) : M Response :=
  tryCatch
    (match safeParse body with
     | None => ret Json400
     | Some data =>
         exam <- createExam data ;;
         ret (Json201 exam)
     end)
    (fun error =>
       consoleWrite (LogCreateError error) ;;;
       ret Json500).

End OnMachine.

(** The subject codes: those the exam list gives a name to. *)
Definition subjectCodes : list string :=
  ["math"; "physics"; "chemistry"; "biology"; "arabic"; "english"; "computer"].

(** Modelled from the spec: [insertExamSchema] of the shared schema module,
    which is not among the sources.  An exam is accepted when its subject
    is one of the subject codes, its date parses as a valid calendar date
    and its topics are not empty; so an exam whose subject, date or topics
    is missing or empty is rejected. *)
Definition insertExamSchema (body : ExamBody) : option InsertExam :=
  match bodySubject body, bodyDate body, bodyTopics body with
  | Some s, Some d, Some ts =>
      if existsb (String.eqb s) subjectCodes
         && (match calendarDate d with Some _ => true | None => false end)
         && negb (Nat.eqb (List.length ts) 0)
      then Some {| newSubject := s; newDate := d; newTopics := ts |}
      else None
  | _, _, _ => None
  end.

(** A run of the sweep from the records [exams], with a fresh console:
    the records and the console lines it leaves. *)
Definition sweep (m : Machine) (exams : list Exam) : list Exam * list LogEntry :=
  let w := snd (deleteExpiredExams m {| store := exams; console := []; clockReads := 0 |}) in
  (store w, console w).

(** The ids the console reports as deleted, and the errors it reports. *)
Definition deletedIds (log : list LogEntry) : list Z :=
  flat_map (fun entry => match entry with LogDeleted i => [i] | _ => [] end) log.


(** A machine whose clock stands still at [now], and on which every date
    string that is not of the form YYYY-MM-DD is read as the Invalid Date. *)
Definition machineAt (tz now : Z) (listFails : bool) (deleteFails : Z -> bool) : Machine :=
  {| localOffset := tz;
     clock := fun _ => now;
     getExamsFails := listFails;
     deleteExamFails := deleteFails;
     createExamFails := false;
     otherDates := fun _ => Invalid |}.

(** *** The timer *)

Inductive Callback : Type :=
| DeleteExpiredExams.

(** What [registerRoutes] does about the sweep when the process starts:
    calls made at once and timers armed. *)
Inductive StartupAction : Type :=
| CallNow (callback : Callback)
| SetInterval (callback : Callback) (delay : Z).

Definition registerRoutes : list StartupAction :=
  [SetInterval DeleteExpiredExams (24 * 60 * 60 * 1000)].

Definition TIMEOUT_MAX : Z := 2147483647.

(** The delay a timer runs with: one outside 1 .. TIMEOUT_MAX becomes 1. *)
Definition timerDelay (delay : Z) : Z :=
  if (delay <? 1) || (TIMEOUT_MAX <? delay) then 1 else delay.

(** How many times an action has started its callback when [elapsed]
    milliseconds have passed since the start: an interval timer fires when
    each full delay has passed, and not when it is armed. *)
Definition startsOf (action : StartupAction) (elapsed : Z) : Z :=
  match action with
  | CallNow _ => if elapsed <? 0 then 0 else 1
  | SetInterval _ delay => if elapsed <? 0 then 0 else elapsed / timerDelay delay
  end.

Definition sweepsStarted (actions : list StartupAction) (elapsed : Z) : Z :=
  fold_right (fun action acc => startsOf action elapsed + acc) 0 actions.

(** The instant, counted from the start, of the k-th firing of a timer. *)
Definition firing (delay : Z) (k : Z) : Z := k * timerDelay delay.

End Server.

Import Server.

(** ** The exam list: [ExamWeek.tsx] *)

Module ExamWeek.

(** [calculateRemainingDays], with [now] the reading [new Date()] takes. *)
Definition calculateRemainingDays (tz now : Z) (examDate : string) : number :=
  let today := At now in
  let targetDate := parseISO tz examDate in
  let days := differenceInDays tz targetDate today in
  days.

(** The [remainingDays] of a row: [null] (here [None]) when the exam has no
    date, since a [Date] object is truthy whatever its time value. *)
Definition remainingDays (tz now : Z) (exam : Exam) : option number :=
  if negb (String.eqb (date exam) "")
  then Some (calculateRemainingDays tz now (date exam))
  else None.

(** Truthiness of a value that is [null] or a number. *)
Definition truthy (v : option number) : bool :=
  match v with
  | Some (Int n) => negb (n =? 0)
  | Some NaN => false
  | None => false
  end.

(** [v > 0] for such a value. *)
Definition greaterThanZero (v : option number) : bool :=
  match v with
  | Some (Int n) => 0 <? n
  | Some NaN => false
  | None => false
  end.

(** The text a template literal gives such a value. *)
Definition toText (v : option number) : string :=
  match v with
  | Some (Int n) => NilZero.string_of_int (Z.to_int n)
  | Some NaN => "NaN"
  | None => "null"
  end.

Definition todayText : string := "اليوم".

Definition daysText (v : option number) : string := (toText v ++ " يوم")%string.

(** The remaining-days cell of a row. *)
Definition remainingDaysCell (v : option number) : string :=
  if truthy v && greaterThanZero v then daysText v else todayText.

End ExamWeek.

(** ** The form: [AddExamModal.tsx] *)

Module AddExamModal.

Record Toast : Type := {
  title : string;
  description : option string;
  destructive : bool
}.

Record FormState : Type := {
  subject : string;
  date : string;
  topics : string
}.

(** What a submission does: the toasts shown, the exams handed to
    [addExam], the fields afterwards and whether the dialog was closed. *)
Record Effects : Type := {
  toasts : list Toast;
  requests : list InsertExam;
  fields : FormState;
  closed : bool
}.

Definition newline : ascii := "010"%char.

(** [s.split(sep)] for a separator of one character. *)
Fixpoint split (sep : ascii) (s : string) : list string :=
  match s with
  | EmptyString => [EmptyString]
  | String c rest =>
      if Ascii.eqb c sep then EmptyString :: split sep rest
      else
        match split sep rest with
        | [] => [String c EmptyString]
        | piece :: pieces => String c piece :: pieces
        end
  end.

(** White space of [trim], among the ASCII characters: tab, line feed,
    vertical tab, form feed, carriage return and space. *)
Definition isWhiteSpace (c : ascii) : bool :=
  let n := N_of_ascii c in
  ((9 <=? n) && (n <=? 13))%N || (n =? 32)%N.

Fixpoint trimStart (s : string) : string :=
  match s with
  | EmptyString => EmptyString
  | String c rest => if isWhiteSpace c then trimStart rest else s
  end.

Fixpoint trimEnd (s : string) : string :=
  match s with
  | EmptyString => EmptyString
  | String c rest =>
      match trimEnd rest with
      | EmptyString => if isWhiteSpace c then EmptyString else String c EmptyString
      | kept => String c kept
      end
  end.

Definition trim (s : string) : string := trimEnd (trimStart s).

(** Truthiness of a string: it is not empty. *)
Definition nonEmpty (s : string) : bool := negb (String.eqb s "").

Section Submit.

(** [addExam] of the exams hook: whether the request it makes succeeds. *)
Variable addExam : InsertExam -> bool.

Definition handleSubmit (st : FormState) : Effects :=
  if negb (nonEmpty (subject st)) || negb (nonEmpty (date st)) || negb (nonEmpty (topics st))
  then
    {| toasts := [ {| title := "خطأ"; description := Some "يرجى ملء جميع الحقول"; destructive := true |} ];
       requests := [];
       fields := st;
       closed := false |}
  else
    let topicsArray := filter (fun topic => nonEmpty (trim topic)) (split newline (topics st)) in
    if Nat.eqb (List.length topicsArray) 0
    then
      {| toasts := [ {| title := "خطأ"; description := Some "يرجى إدخال الدروس المقررة"; destructive := true |} ];
         requests := [];
         fields := st;
         closed := false |}
    else
      let exam := {| newSubject := subject st; newDate := date st; newTopics := topicsArray |} in
      if addExam exam
      then
        {| toasts := [ {| title := "تم إضافة الاختبار بنجاح"; description := None; destructive := false |} ];
           requests := [exam];
           fields := {| subject := ""; date := ""; topics := "" |};
           closed := true |}
      else
        {| toasts := [ {| title := "خطأ"; description := Some "حدث خطأ أثناء إضافة الاختبار"; destructive := true |} ];
           requests := [exam];
           fields := st;
           closed := false |}.

End Submit.

(** The request body [addExam] sends for an exam. *)
Definition bodyOf (exam : InsertExam) : ExamBody :=
  {| bodySubject := Some (newSubject exam);
     bodyDate := Some (newDate exam);
     bodyTopics := Some (newTopics exam) |}.

(** A field of a request body is missing or empty. *)
Definition missingOrEmpty (field : option string) : Prop :=
  field = None \/ field = Some "".

Definition noTopics (field : option (list string)) : Prop :=
  field = None \/ field = Some [].

End AddExamModal.

(** ** The fixed zone and the cutoff, in the words of the description *)

Module Riyadh.

Definition offset : Z := 3 * msPerHour.

Definition cutoffHour : Z := 10.

(** The wall clock of Asia/Riyadh at an instant: milliseconds of civil time,
    counted from 1970-01-01 00:00 on that wall clock. *)
Definition wallClock (instant : Z) : Z := instant + offset.

(** The instant at which the wall clock of Asia/Riyadh reads [hour]:00:00.000
    on the given calendar date. *)
Definition instantOf (year month day hour : Z) : Z :=
  daysFromCivil year month day * msPerDay + hour * msPerHour - offset.

(** The day number and the time of day the wall clock of Asia/Riyadh shows. *)
Definition dayOf (instant : Z) : Z := wallClock instant / msPerDay.

Definition timeOfDay (instant : Z) : Z := wallClock instant mod msPerDay.

End Riyadh.

(** ** Sample data *)

Module Samples.

Definition exam_2024_01_10 : Exam :=
  {| id := 1; Server.subject := "math"; Server.date := "2024-01-10"; Server.topics := ["ch1"] |}.

Definition exam_2024_01_15 : Exam :=
  {| id := 2; Server.subject := "physics"; Server.date := "2024-01-15"; Server.topics := ["ch2"] |}.

Definition exam_unparseable : Exam :=
  {| id := 3; Server.subject := "arabic"; Server.date := "not-a-date"; Server.topics := ["ch3"] |}.

Definition exam_2024_01_08 : Exam :=
  {| id := 4; Server.subject := "biology"; Server.date := "2024-01-08"; Server.topics := ["ch4"] |}.

Definition exam_2024_01_09 : Exam :=
  {| id := 5; Server.subject := "english"; Server.date := "2024-01-09"; Server.topics := ["ch5"] |}.

(** 2024-01-10 at 09:00, 10:00 and 11:00, and 2024-01-09 at 23:00, on the
    wall clock of Asia/Riyadh. *)
Definition at_09_00 : Z := Riyadh.instantOf 2024 1 10 9.
Definition at_10_00 : Z := Riyadh.instantOf 2024 1 10 10.
Definition at_11_00 : Z := Riyadh.instantOf 2024 1 10 11.
Definition eve_23_00 : Z := Riyadh.instantOf 2024 1 9 23.

(** Noon of 2024-01-10 on a machine on UTC. *)
Definition noon_2024_01_10 : Z := daysFromCivil 2024 1 10 * msPerDay + 12 * msPerHour.

Definition neverFails : Z -> bool := fun _ => false.

(** A machine on UTC whose store never fails. *)
Definition sound (now : Z) : Machine := machineAt 0 now false neverFails.

(** A machine on UTC whose store fails to delete the exam of id 4. *)
Definition flaky (now : Z) : Machine := machineAt 0 now false (fun examId => examId =? 4).

(** A machine on UTC whose store fails to list. *)
Definition offline (now : Z) : Machine := machineAt 0 now true neverFails.

(** A form filled with a date that is no calendar date, the exam it
    submits and the record the store makes of it. *)
Definition form_unparseable : AddExamModal.FormState :=
  {| AddExamModal.subject := "math";
     AddExamModal.date := "not-a-date";
     AddExamModal.topics := "ch1" |}.

Definition insert_unparseable : InsertExam :=
  {| newSubject := "math"; newDate := "not-a-date"; newTopics := ["ch1"] |}.

(** The data of [exam_2024_01_10] before the store gives it an id. *)
Definition insert_2024_01_10 : InsertExam :=
  {| newSubject := "math"; newDate := "2024-01-10"; newTopics := ["ch1"] |}.

(** An exam whose date is written without dashes, and a machine on UTC on
    which such a date is read as the day it names. *)
Definition exam_20240108 : Exam :=
  {| id := 6; Server.subject := "math"; Server.date := "20240108"; Server.topics := ["ch6"] |}.

Definition lenient (now : Z) : Machine :=
  {| localOffset := 0;
     clock := fun _ => now;
     getExamsFails := false;
     deleteExamFails := neverFails;
     createExamFails := false;
     otherDates := fun s => if String.eqb s "20240108"
                            then At (daysFromCivil 2024 1 8 * msPerDay)
                            else Invalid |}.

Definition fresh (exams : list Exam) : World :=
  {| store := exams; console := []; clockReads := 0 |}.

End Samples.

(** ** More of JavaScript: letter case, [parseInt], [join], [sort] *)

Module Js.

(** [toLowerCase] on the letters A to Z; the other characters of a string
    of ASCII letters, digits and signs stay as they are. *)
Definition toLowerChar (c : ascii) : ascii :=
  let n := N_of_ascii c in
  if ((65 <=? n) && (n <=? 90))%N then ascii_of_N (n + 32) else c.

Fixpoint toLowerCase (s : string) : string :=
  match s with
  | EmptyString => EmptyString
  | String c rest => String (toLowerChar c) (toLowerCase rest)
  end.

(** The value of a character as a digit: 0 to 9, then a to z and A to Z
    for 10 to 35. *)
Definition digitValue (c : ascii) : option Z :=
  let n := Z.of_N (N_of_ascii c) in
  if (48 <=? n) && (n <=? 57) then Some (n - 48)
  else if (97 <=? n) && (n <=? 122) then Some (n - 87)
  else if (65 <=? n) && (n <=? 90) then Some (n - 55)
  else None.

Definition radixDigit (radix : Z) (c : ascii) : option Z :=
  match digitValue c with
  | Some d => if d <? radix then Some d else None
  | None => None
  end.

(** The number written by the longest run of digits at the start of a
    string; NaN when the string starts with no digit. *)
Fixpoint leadingDigits (radix : Z) (acc : number) (s : string) : number :=
  match s with
  | EmptyString => acc
  | String c rest =>
      match radixDigit radix c with
      | Some d =>
          leadingDigits radix
            (Int (radix * (match acc with Int a => a | NaN => 0 end) + d)) rest
      | None => acc
      end
  end.

(** [parseInt(s)] with no radix given: leading white space is skipped, a
    sign is read, a prefix 0x or 0X makes the digits hexadecimal, and what
    follows the digits is ignored.  Integers are kept exact. *)
Definition parseInt (s : string) : number :=
  let s0 := AddExamModal.trimStart s in
  let (sign, s1) :=
    match s0 with
    | String c rest =>
        if Ascii.eqb c "-"%char then (-1, rest)
        else if Ascii.eqb c "+"%char then (1, rest)
        else (1, s0)
    | EmptyString => (1, s0)
    end in
  let (radix, s2) :=
    match s1 with
    | String c0 (String c1 rest) =>
        if Ascii.eqb c0 "0"%char && (Ascii.eqb c1 "x"%char || Ascii.eqb c1 "X"%char)
        then (16, rest)
        else (10, s1)
    | _ => (10, s1)
    end in
  match leadingDigits radix NaN s2 with
  | Int v => Int (sign * v)
  | NaN => NaN
  end.

(** The integers a number holds exactly: up to [Number.MAX_SAFE_INTEGER]. *)
Definition MAX_SAFE_INTEGER : Z := 9007199254740991.

(** A string of ASCII characters only. *)
Definition isAscii (s : string) : bool :=
  forallb (fun c => (N_of_ascii c <? 128)%N) (list_ascii_of_string s).

(** [pieces.join(sep)]. *)
Fixpoint join (sep : string) (pieces : list string) : string :=
  match pieces with
  | [] => EmptyString
  | [piece] => piece
  | piece :: rest => (piece ++ sep ++ join sep rest)%string
  end.

(** [a - b] on numbers, and [v > 0]. *)
Definition minus (a b : number) : number :=
  match a, b with
  | Int x, Int y => Int (x - y)
  | _, _ => NaN
  end.

Definition isPositive (v : number) : bool :=
  match v with
  | Int n => 0 <? n
  | NaN => false
  end.

(** [Array.prototype.sort] with a comparison function: the sort is stable,
    and a comparison that gives NaN counts as 0.  An element goes before
    the first element it does not compare greater than. *)
Fixpoint insertBy {A : Type} (compareFn : A -> A -> number) (x : A) (sorted : list A) : list A :=
  match sorted with
  | [] => [x]
  | y :: rest =>
      if isPositive (compareFn x y) then y :: insertBy compareFn x rest
      else x :: y :: rest
  end.

Fixpoint sort {A : Type} (compareFn : A -> A -> number) (l : list A) : list A :=
  match l with
  | [] => []
  | x :: rest => insertBy compareFn x (sort compareFn rest)
  end.

(** [addLeadingZeros(n, targetLength)] of date-fns. *)
Definition addLeadingZeros (n : Z) (targetLength : nat) : string :=
  let sign := if n <? 0 then "-" else "" in
  let output := NilZero.string_of_int (Z.to_int (Z.abs n)) in
  (sign ++ string_of_list_ascii (repeat "0"%char (targetLength - String.length output))
        ++ output)%string.

(** The civil date of a day number: the fields [getUTCFullYear],
    [getUTCMonth] + 1 and [getUTCDate] of the [Date] at that day. *)
Definition civilFromDays (days : Z) : Z * Z * Z :=
  let z := days + 719468 in
  let era := z / 146097 in
  let doe := z - era * 146097 in
  let yoe := (doe - doe / 1460 + doe / 36524 - doe / 146096) / 365 in
  let doy := doe - (365 * yoe + yoe / 4 - yoe / 100) in
  let mp := (5 * doy + 2) / 153 in
  let day := doy - (153 * mp + 2) / 5 + 1 in
  let month := if mp <? 10 then mp + 3 else mp - 9 in
  let year := yoe + era * 400 + (if month <=? 2 then 1 else 0) in
  (year, month, day).

(** [format(date, 'dd/MM/yyyy')] of date-fns, read in the local zone; a year
    before year 1 is written as a year of the era before. *)
Definition format_dd_MM_yyyy (tz : Z) (time : Z) : string :=
  let '(signedYear, month, day) := civilFromDays ((time + tz) / msPerDay) in
  let year := if 0 <? signedYear then signedYear else 1 - signedYear in
  (addLeadingZeros day 2 ++ "/" ++ addLeadingZeros month 2 ++ "/" ++ addLeadingZeros year 4)%string.

End Js.

(** ** More of the exam list: [ExamWeek.tsx] *)

Module ExamTable.

(** The table of [getArabicSubject]. *)
Definition subjects : list (string * string) :=
  [ ("math", "الرياضيات");
    ("physics", "الفيزياء");
    ("chemistry", "الكيمياء");
    ("biology", "الأحياء");
    ("arabic", "اللغة العربية");
    ("english", "اللغة الإنجليزية");
    ("computer", "الحاسب الآلي") ].

(** The names an object written as a literal inherits. *)
Definition inheritedNames : list string :=
  [ "constructor"; "__defineGetter__"; "__defineSetter__"; "hasOwnProperty";
    "__lookupGetter__"; "__lookupSetter__"; "isPrototypeOf"; "propertyIsEnumerable";
    "toString"; "valueOf"; "__proto__"; "toLocaleString" ].

Inductive Property : Type :=
| Own (value : string)
| Inherited
| Absent.

Fixpoint ownProperty (table : list (string * string)) (key : string) : option string :=
  match table with
  | [] => None
  | (name, value) :: rest => if String.eqb name key then Some value else ownProperty rest key
  end.

(** [table[key]]. *)
Definition getProperty (table : list (string * string)) (key : string) : Property :=
  match ownProperty table key with
  | Some value => Own value
  | None => if existsb (String.eqb key) inheritedNames then Inherited else Absent
  end.

(** What [getArabicSubject] gives: a text, or a member of the prototype,
    which is no text. *)
Inductive Shown : Type :=
| Label (text : string)
| PrototypeMember.

Definition getArabicSubject (subject : string) : Shown :=
  match getProperty subjects (Js.toLowerCase subject) with
  | Own value => if AddExamModal.nonEmpty value then Label value else Label subject
  | Inherited => PrototypeMember
  | Absent => Label subject
  end.

(** [new Date(s).getTime()]: a date without a time is midnight UTC of that
    day.  What other strings give depends on the engine; here they give NaN,
    as a string no engine reads does. *)
Definition getTime (s : string) : number :=
  match calendarDate s with
  | Some (year, month, day) => Int (daysFromCivil year month day * msPerDay)
  | None => NaN
  end.

(** [sortedExams]: a sorted copy of the exams. *)
Definition sortedExams (exams : list Exam) : list Exam :=
  Js.sort (fun a b => Js.minus (getTime (Server.date a)) (getTime (Server.date b))) exams.

(** The day number of an exam's date, 0 when the date is no calendar date. *)
Definition examDay (exam : Exam) : Z :=
  match calendarDate (Server.date exam) with
  | Some (year, month, day) => daysFromCivil year month day
  | None => 0
  end.

(** The date cell of a row, in a browser whose zone is [tz]. *)
Definition dateCell (tz : Z) (exam : Exam) : string :=
  if negb (String.eqb (Server.date exam) "")
  then
    match getTime (Server.date exam) with
    | Int time => Js.format_dd_MM_yyyy tz time
    | NaN => "-"
    end
  else "-".

End ExamTable.

(** ** More of the server: deleting an exam by its id *)

Module ExamRoutes.

(** A console line of the route, and a reply with its status and message. *)
Inductive RouteLog : Type :=
| LogDeleteExamError (error : Thrown) (* Error deleting exam: .. *).

Inductive Reply : Type :=
| Json (statusCode : Z) (message : string).

Definition statusCode (r : Reply) : Z :=
  match r with Json code _ => code end.

Section OnMachine.

Variable m : Machine.

(** [storage.deleteExam(id)] for what [parseInt] gave: no record has the id
    NaN, so nothing is removed for it; a failure of the store on such a
    call is left out. *)
Definition deleteExamNumber (examId : number) : M bool :=
  match examId with
  | Int n => deleteExam m n
  | NaN => ret false
  end.

(** The handler of DELETE /api/exams/:id: the reply, the world and the
    lines the handler writes to the console. *)
Definition deleteExamRoute (idParam : string) (w : World) : Reply * World * list RouteLog :=
  let examId := Js.parseInt idParam in
  match deleteExamNumber examId w with
  | (Returned deleted, w') =>
      if negb deleted
      then (Json 404 "Exam not found", w', [])
      else (Json 200 "Exam deleted successfully", w', [])
  | (Threw error, w') =>
      (Json 500 "Failed to delete exam", w', [LogDeleteExamError error])
  end.

End OnMachine.

End ExamRoutes.

(** ** Dates *)

Example daysFromCivil_epoch : daysFromCivil 1970 1 1 = 0.
Proof. reflexivity. Qed.

Example daysFromCivil_2024_01_10 : daysFromCivil 2024 1 10 = 19732.
Proof. reflexivity. Qed.

Example calendarDate_2024_01_10 : calendarDate "2024-01-10" = Some (2024, 1, 10).
Proof. reflexivity. Qed.

Example calendarDate_not_a_day : calendarDate "2023-02-29" = None.
Proof. reflexivity. Qed.

Example calendarDate_garbage : calendarDate "not-a-date" = None.
Proof. reflexivity. Qed.

Lemma parseISO_calendarDate (tz : Z) (s : string) (year month day : Z) :
  calendarDate s = Some (year, month, day) ->
  parseISO tz s = At (daysFromCivil year month day * msPerDay - tz).
Proof. intros H. unfold parseISO. now rewrite H. Qed.

Lemma parseISOWith_calendarDate (other : string -> Date) (tz : Z) (s : string)
      (year month day : Z) :
  calendarDate s = Some (year, month, day) ->
  parseISOWith other tz s = At (daysFromCivil year month day * msPerDay - tz).
Proof. intros H. unfold parseISOWith. now rewrite H. Qed.

Lemma parseISO_Invalid_iff (tz : Z) (s : string) :
  parseISO tz s = Invalid <-> calendarDate s = None.
Proof.
  unfold parseISO. destruct (calendarDate s) as [[[y mo] d]|]; split; intros H;
    try discriminate; reflexivity.
Qed.

(** Setting the hour of a local midnight. *)
Lemma setHours_midnight (tz dayNumber hours : Z) :
  setHours tz (At (dayNumber * msPerDay - tz)) hours
  = At (dayNumber * msPerDay + hours * msPerHour - tz).
Proof.
  unfold setHours. f_equal.
  replace (dayNumber * msPerDay - tz + tz) with (dayNumber * msPerDay) by lia.
  unfold msPerDay, msPerHour.
  Z.div_mod_to_equations. lia.
Qed.

(** ** The expiry test *)

(** The test on an exam whose date is a calendar date compares the cutoff,
    10:00 of that date in Asia/Riyadh, with the clock reading; the local
    zone of the machine cancels out. *)
Lemma examExpired_calendar (m : Machine) (exam : Exam) (now year month day : Z) :
  calendarDate (Server.date exam) = Some (year, month, day) ->
  examExpired m exam (At now)
  = (Riyadh.instantOf year month day Riyadh.cutoffHour <? now).
Proof.
  intros H. unfold examExpired.
  rewrite (parseISOWith_calendarDate _ _ _ _ _ _ H), setHours_midnight.
  unfold utcToZonedTime, zoneOffset. simpl String.eqb. cbv iota.
  unfold isBefore, Riyadh.instantOf, Riyadh.cutoffHour, Riyadh.offset.
  apply Bool.eq_true_iff_eq. rewrite !Z.ltb_lt. lia.
Qed.

Lemma examExpired_Invalid (m : Machine) (exam : Exam) (current : Date) :
  parseISOWith (otherDates m) (localOffset m) (Server.date exam) = Invalid ->
  examExpired m exam current = false.
Proof. intros H. unfold examExpired. rewrite H. reflexivity. Qed.

(** C1: for every exam whose date is a calendar date and every instant
    [now], the test of the sweep reports the exam expired exactly when the
    instant of 10:00 on the exam's date in Asia/Riyadh is strictly before
    [now], both read on the wall clock of that zone. *)
Theorem examExpired_iff_cutoff_before_now :
  forall (m : Machine) (exam : Exam) (now year month day : Z),
    calendarDate (Server.date exam) = Some (year, month, day) ->
    examExpired m exam (At now) = true <->
    Riyadh.wallClock (Riyadh.instantOf year month day Riyadh.cutoffHour)
    < Riyadh.wallClock now.
Proof.
  intros m exam now year month day H.
  rewrite (examExpired_calendar _ _ _ _ _ _ H), Z.ltb_lt.
  unfold Riyadh.wallClock. lia.
Qed.

Lemma examExpired_iff_cutoff_before_now_witness :
  calendarDate (Server.date Samples.exam_2024_01_10) = Some (2024, 1, 10) /\
  (examExpired (Samples.sound Samples.at_11_00) Samples.exam_2024_01_10 (At Samples.at_11_00) = true <->
   Riyadh.wallClock (Riyadh.instantOf 2024 1 10 Riyadh.cutoffHour)
   < Riyadh.wallClock Samples.at_11_00).
Proof.
  split; [reflexivity|].
  apply (examExpired_iff_cutoff_before_now
           (Samples.sound Samples.at_11_00) Samples.exam_2024_01_10 Samples.at_11_00 2024 1 10).
  reflexivity.
Defined.

(** The three instants of the scenario of the description. *)
Example scenario_09_00 :
  examExpired (Samples.sound Samples.at_09_00) Samples.exam_2024_01_10 (At Samples.at_09_00) = false.
Proof. reflexivity. Qed.

Example scenario_11_00 :
  examExpired (Samples.sound Samples.at_11_00) Samples.exam_2024_01_10 (At Samples.at_11_00) = true.
Proof. reflexivity. Qed.

Example scenario_eve_23_00 :
  examExpired (Samples.sound Samples.eve_23_00) Samples.exam_2024_01_10 (At Samples.eve_23_00) = false.
Proof. reflexivity. Qed.

(** C4, as the code has it: for every exam whose date is the current date
    in Asia/Riyadh, the test reports not expired while the wall clock there
    reads 10:00:00.000 or earlier, and expired once it reads later. *)
Theorem same_day_expired_strictly_after_cutoff :
  forall (m : Machine) (exam : Exam) (now year month day : Z),
    calendarDate (Server.date exam) = Some (year, month, day) ->
    Riyadh.dayOf now = daysFromCivil year month day ->
    (Riyadh.timeOfDay now <= Riyadh.cutoffHour * msPerHour ->
     examExpired m exam (At now) = false) /\
    (Riyadh.cutoffHour * msPerHour < Riyadh.timeOfDay now ->
     examExpired m exam (At now) = true).
Proof.
  intros m exam now year month day H Hday.
  rewrite (examExpired_calendar _ _ _ _ _ _ H).
  unfold Riyadh.dayOf, Riyadh.timeOfDay in *.
  unfold Riyadh.instantOf. rewrite <- Hday.
  assert (Hdm : Riyadh.wallClock now
                = msPerDay * (Riyadh.wallClock now / msPerDay)
                  + Riyadh.wallClock now mod msPerDay)
    by (apply Z.div_mod; discriminate).
  unfold Riyadh.wallClock in *.
  split; intros Ht; [apply Z.ltb_ge | apply Z.ltb_lt]; lia.
Qed.

Lemma same_day_expired_strictly_after_cutoff_witness :
  examExpired (Samples.sound Samples.at_10_00) Samples.exam_2024_01_10 (At Samples.at_10_00) = false.
Proof.
  apply (same_day_expired_strictly_after_cutoff
           (Samples.sound Samples.at_10_00) Samples.exam_2024_01_10 Samples.at_10_00 2024 1 10).
  - reflexivity.
  - reflexivity.
  - vm_compute. discriminate.
Defined.

(** At 10:00:00.000 on the exam's date the exam is not expired. *)
Lemma boundary_instant_not_expired :
  Riyadh.dayOf Samples.at_10_00 = daysFromCivil 2024 1 10 /\
  Riyadh.timeOfDay Samples.at_10_00 = 10 * msPerHour /\
  calendarDate (Server.date Samples.exam_2024_01_10) = Some (2024, 1, 10) /\
  examExpired (Samples.sound Samples.at_10_00) Samples.exam_2024_01_10 (At Samples.at_10_00) = false.
Proof. repeat split. Qed.

(** ** The sweep, one exam at a time *)

Lemma sweepExam_not_expired (m : Machine) (exam : Exam) (w : World) :
  examExpired m exam (At (clock m (clockReads w))) = false ->
  sweepExam m exam w = (Returned tt, tick w).
Proof. intros H. unfold sweepExam, bind, newDateNow. now rewrite H. Qed.

Lemma sweepExam_delete_fails (m : Machine) (exam : Exam) (w : World) :
  examExpired m exam (At (clock m (clockReads w))) = true ->
  deleteExamFails m (id exam) = true ->
  sweepExam m exam w = (Threw StoreError, tick w).
Proof.
  intros H Hf. unfold sweepExam, bind, newDateNow, deleteExam.
  now rewrite H, Hf.
Qed.

Lemma sweepExam_deletes (m : Machine) (exam : Exam) (w : World) :
  examExpired m exam (At (clock m (clockReads w))) = true ->
  deleteExamFails m (id exam) = false ->
  sweepExam m exam w
  = (Returned tt,
     {| store := filter (fun x => negb (hasId (id exam) x)) (store w);
        console := console w ++ [LogDeleted (id exam)];
        clockReads := S (clockReads w) |}).
Proof.
  intros H Hf. unfold sweepExam, bind, newDateNow, deleteExam.
  now rewrite H, Hf.
Qed.

(** The three ways one step of the loop can go. *)
Lemma sweepExam_cases (m : Machine) (exam : Exam) (w : World) :
  sweepExam m exam w = (Returned tt, tick w)
  \/ sweepExam m exam w = (Threw StoreError, tick w)
  \/ (examExpired m exam (At (clock m (clockReads w))) = true /\
      sweepExam m exam w
      = (Returned tt,
         {| store := filter (fun x => negb (hasId (id exam) x)) (store w);
            console := console w ++ [LogDeleted (id exam)];
            clockReads := S (clockReads w) |})).
Proof.
  destruct (examExpired m exam (At (clock m (clockReads w)))) eqn:E.
  - destruct (deleteExamFails m (id exam)) eqn:F.
    + right; left. now apply sweepExam_delete_fails.
    + right; right. split; [reflexivity|]. now apply sweepExam_deletes.
  - left. now apply sweepExam_not_expired.
Qed.

Lemma forOf_cons {A : Type} (x : A) (rest : list A) (body : A -> M unit) (w : World) :
  forOf (x :: rest) body w
  = match body x w with
    | (Returned _, w') => forOf rest body w'
    | (Threw e, w') => (Threw e, w')
    end.
Proof. reflexivity. Qed.

Lemma forOf_app {A : Type} (xs ys : list A) (body : A -> M unit) (w : World) :
  forOf (xs ++ ys) body w
  = match forOf xs body w with
    | (Returned _, w') => forOf ys body w'
    | (Threw e, w') => (Threw e, w')
    end.
Proof.
  revert w. induction xs as [|x xs IH]; intros w.
  - reflexivity.
  - simpl app. rewrite !forOf_cons.
    destruct (body x w) as [[u|e] w1]; [apply IH | reflexivity].
Qed.

(** A loop that returns has read the clock once for each exam. *)
Lemma forOf_sweep_reads (m : Machine) (l : list Exam) :
  forall w w', forOf l (sweepExam m) w = (Returned tt, w') ->
               clockReads w' = (clockReads w + List.length l)%nat.
Proof.
  induction l as [|e l IH]; intros w w' H.
  - inversion H; subst. simpl. lia.
  - rewrite forOf_cons in H.
    destruct (sweepExam_cases m e w) as [E|[E|[_ E]]]; rewrite E in H;
      try discriminate; apply IH in H; simpl in *; lia.
Qed.

(** The loop removes nothing but exams carrying the id of an exam it visits. *)
Lemma forOf_sweep_keeps (m : Machine) (l : list Exam) :
  forall w o w' x,
    forOf l (sweepExam m) w = (o, w') ->
    In x (store w) ->
    (forall e, In e l -> id e <> id x) ->
    In x (store w').
Proof.
  induction l as [|e l IH]; intros w o w' x H Hin Hid.
  - inversion H; subst. exact Hin.
  - rewrite forOf_cons in H.
    destruct (sweepExam_cases m e w) as [E|[E|[_ E]]]; rewrite E in H.
    + eapply IH; eauto. intros e' He'. apply Hid. now right.
    + inversion H; subst. exact Hin.
    + eapply IH; eauto.
      * simpl. apply filter_In. split; [exact Hin|].
        unfold hasId. apply negb_true_iff, Z.eqb_neq.
        intros Heq. apply (Hid e); [now left | now symmetry].
      * intros e' He'. apply Hid. now right.
Qed.

(** The loop adds no record. *)
Lemma forOf_sweep_incl (m : Machine) (l : list Exam) :
  forall w o w' x,
    forOf l (sweepExam m) w = (o, w') -> In x (store w') -> In x (store w).
Proof.
  induction l as [|e l IH]; intros w o w' x H Hin.
  - inversion H; subst. exact Hin.
  - rewrite forOf_cons in H.
    destruct (sweepExam_cases m e w) as [E|[E|[_ E]]]; rewrite E in H.
    + apply (IH _ _ _ _ H Hin).
    + inversion H; subst. exact Hin.
    + apply (IH _ _ _ _ H) in Hin. simpl in Hin.
      apply filter_In in Hin. tauto.
Qed.

(** ** Exams whose date does not parse *)

(** C2, as the code has it: for every exam whose date fails to parse, the
    step of the sweep raises no error: the exam counts as not expired,
    nothing is deleted and nothing is logged, and the loop goes on with the
    remaining exams of the run. *)
Theorem unparseable_date_is_skipped :
  forall (m : Machine) (exam : Exam) (rest : list Exam) (w : World),
    parseISOWith (otherDates m) (localOffset m) (Server.date exam) = Invalid ->
    examExpired m exam (At (clock m (clockReads w))) = false /\
    sweepExam m exam w = (Returned tt, tick w) /\
    forOf (exam :: rest) (sweepExam m) w = forOf rest (sweepExam m) (tick w).
Proof.
  intros m exam rest w H.
  pose proof (examExpired_Invalid m exam (At (clock m (clockReads w))) H) as E.
  split; [exact E|].
  split; [now apply sweepExam_not_expired|].
  rewrite forOf_cons, (sweepExam_not_expired _ _ _ E). reflexivity.
Qed.

Lemma unparseable_date_is_skipped_witness :
  sweepExam (Samples.sound Samples.at_11_00) Samples.exam_unparseable
            (Samples.fresh [Samples.exam_unparseable])
  = (Returned tt, tick (Samples.fresh [Samples.exam_unparseable])).
Proof.
  apply (unparseable_date_is_skipped
           (Samples.sound Samples.at_11_00) Samples.exam_unparseable []
           (Samples.fresh [Samples.exam_unparseable])).
  reflexivity.
Defined.

(** An exam whose date does not parse makes the sweep throw nothing and log
    nothing: it is kept as if it were not expired. *)
Lemma unparseable_date_raises_no_error :
  parseISOWith (otherDates (Samples.sound Samples.at_11_00))
               (localOffset (Samples.sound Samples.at_11_00))
               (Server.date Samples.exam_unparseable) = Invalid /\
  fst (sweepExam (Samples.sound Samples.at_11_00) Samples.exam_unparseable
                 (Samples.fresh [Samples.exam_unparseable]))
  <> Threw ParseError /\
  fst (sweepExam (Samples.sound Samples.at_11_00) Samples.exam_unparseable
                 (Samples.fresh [Samples.exam_unparseable]))
  = Returned tt /\
  sweep (Samples.sound Samples.at_11_00) [Samples.exam_unparseable]
  = ([Samples.exam_unparseable], []).
Proof.
  split; [reflexivity|]. split; [discriminate|]. split; reflexivity.
Qed.

(** Five exams, the third with a date that does not parse: the expired ones
    among the others are deleted, the third stays and nothing is logged
    about it. *)
Example sweep_five_exams :
  sweep (Samples.sound Samples.at_11_00)
        [Samples.exam_2024_01_08; Samples.exam_2024_01_09; Samples.exam_unparseable;
         Samples.exam_2024_01_10; Samples.exam_2024_01_15]
  = ([Samples.exam_unparseable; Samples.exam_2024_01_15],
     [LogDeleted 4; LogDeleted 5; LogDeleted 1]).
Proof. reflexivity. Qed.

(** What the library makes of a date decides: on a machine that reads
    20240108 as a day the exam of that date is expired and deleted, and on
    one that reads it as the Invalid Date it is kept. *)
Example sweep_date_without_dashes :
  sweep (Samples.lenient Samples.at_11_00) [Samples.exam_20240108]
  = ([], [LogDeleted 6]) /\
  sweep (Samples.sound Samples.at_11_00) [Samples.exam_20240108]
  = ([Samples.exam_20240108], []).
Proof. split; reflexivity. Qed.

(** ** Failures of the store *)

Lemma deleteExpiredExams_list_fails (m : Machine) (w : World) :
  getExamsFails m = true ->
  deleteExpiredExams m w
  = (Returned tt,
     {| store := store w;
        console := console w ++ [LogSweepError StoreError];
        clockReads := clockReads w |}).
Proof.
  intros H. unfold deleteExpiredExams, tryCatch, bind, getExams.
  rewrite H. reflexivity.
Qed.

Lemma deleteExpiredExams_list_ok (m : Machine) (w : World) :
  getExamsFails m = false ->
  deleteExpiredExams m w
  = match forOf (store w) (sweepExam m) w with
    | (Returned u, w') => (Returned u, w')
    | (Threw e, w') => consoleWrite (LogSweepError e) w'
    end.
Proof.
  intros H. unfold deleteExpiredExams, tryCatch, bind, getExams.
  rewrite H. reflexivity.
Qed.

(** C3, as the code has it: a failure of the delete call for one exam is
    caught and logged by the one handler of the sweep and ends the run: the
    sweep returns, the exams after the failing one are not evaluated and
    none of them is deleted.  A failure of the list fetch ends the run
    before any exam is evaluated. *)
Theorem delete_failure_ends_the_run :
  forall (m : Machine) (before after : list Exam) (exam : Exam),
    let w0 := {| store := before ++ exam :: after; console := []; clockReads := 0 |} in
    getExamsFails m = false ->
    fst (forOf before (sweepExam m) w0) = Returned tt ->
    examExpired m exam (At (clock m (List.length before))) = true ->
    deleteExamFails m (id exam) = true ->
    (exists w1,
        deleteExpiredExams m w0 = (Returned tt, w1) /\
        console w1
        = console (snd (forOf before (sweepExam m) w0)) ++ [LogSweepError StoreError] /\
        clockReads w1 = S (List.length before) /\
        (forall x, In x after -> (forall b, In b before -> id b <> id x) ->
                   In x (store w1))) /\
    (forall (m' : Machine) (w : World),
        getExamsFails m' = true ->
        deleteExpiredExams m' w
        = (Returned tt,
           {| store := store w;
              console := console w ++ [LogSweepError StoreError];
              clockReads := clockReads w |})).
Proof.
  intros m before after exam w0 Hlist Hbefore Hexp Hfail.
  split; [|intros m' w; apply deleteExpiredExams_list_fails].
  rewrite (deleteExpiredExams_list_ok _ _ Hlist).
  change (store w0) with (before ++ exam :: after).
  rewrite forOf_app.
  destruct (forOf before (sweepExam m) w0) as [[[]|e] wb] eqn:Eb;
    simpl in Hbefore; [clear Hbefore | discriminate].
  pose proof (forOf_sweep_reads _ _ _ _ Eb) as Hreads. simpl in Hreads.
  rewrite forOf_cons, sweepExam_delete_fails;
    [ | rewrite Hreads; exact Hexp | exact Hfail ].
  eexists. split; [reflexivity|]. simpl.
  split; [reflexivity|]. split; [now rewrite Hreads|].
  intros x Hx Hid.
  eapply forOf_sweep_keeps; [exact Eb | | exact Hid].
  subst w0. simpl. apply in_or_app. right. now right.
Qed.

Lemma delete_failure_ends_the_run_witness :
  exists w1,
    deleteExpiredExams (Samples.flaky Samples.at_11_00)
      {| store := [Samples.exam_2024_01_10] ++ Samples.exam_2024_01_08 :: [Samples.exam_2024_01_09];
         console := []; clockReads := 0 |}
    = (Returned tt, w1) /\
    In Samples.exam_2024_01_09 (store w1).
Proof.
  destruct (delete_failure_ends_the_run
              (Samples.flaky Samples.at_11_00)
              [Samples.exam_2024_01_10] [Samples.exam_2024_01_09] Samples.exam_2024_01_08)
    as [[w1 [H1 [_ [_ H4]]]] _]; try reflexivity.
  exists w1. split; [exact H1|].
  apply H4; [now left|].
  intros b [Hb|[]]; subst b. vm_compute. discriminate.
Defined.

(** Two expired exams, the store failing to delete the first: the second is
    not deleted in that run, although deleting it would not fail. *)
Lemma delete_failure_stops_later_deletions :
  examExpired (Samples.flaky Samples.at_11_00) Samples.exam_2024_01_09 (At Samples.at_11_00) = true /\
  deleteExamFails (Samples.flaky Samples.at_11_00) (id Samples.exam_2024_01_09) = false /\
  sweep (Samples.flaky Samples.at_11_00) [Samples.exam_2024_01_08; Samples.exam_2024_01_09]
  = ([Samples.exam_2024_01_08; Samples.exam_2024_01_09], [LogSweepError StoreError]) /\
  sweep (Samples.sound Samples.at_11_00) [Samples.exam_2024_01_08; Samples.exam_2024_01_09]
  = ([], [LogDeleted 4; LogDeleted 5]).
Proof. repeat split. Qed.

(** ** Running the sweep twice *)


Section StandingClock.

Variable m : Machine.
Variable now : Z.
Hypothesis clock_stands : forall k, clock m k = now.




End StandingClock.





(** A run whose list fetch fails touches nothing and logs the failure. *)
Example sweep_offline :
  sweep (Samples.offline Samples.at_11_00) [Samples.exam_2024_01_08; Samples.exam_2024_01_09]
  = ([Samples.exam_2024_01_08; Samples.exam_2024_01_09], [LogSweepError StoreError]).
Proof. reflexivity. Qed.

(** With a failure in the first run the second run has work left. *)
Example sweep_after_failed_run :
  sweep (Samples.sound Samples.at_11_00)
        (fst (sweep (Samples.flaky Samples.at_11_00)
                    [Samples.exam_2024_01_08; Samples.exam_2024_01_09]))
  = ([], [LogDeleted 4; LogDeleted 5]).
Proof. reflexivity. Qed.

(** ** Remaining days *)

(** On a zone of fixed offset the steps of [differenceInDays] come to the
    difference of the time values in days, cut toward zero. *)
Lemma differenceInDays_full_days (tz l r : Z) :
  differenceInDays tz (At l) (At r) = Int ((l - r) ÷ msPerDay).
Proof.
  unfold differenceInDays, compareLocalAsc, differenceInCalendarDays, msPerDay, msPerHour.
  f_equal.
  destruct (Z.compare_spec (l + tz) (r + tz)) as [H|H|H].
  - replace (l - r) with 0 by lia. reflexivity.
  - match goal with |- context [?a ?= ?b] => destruct (Z.compare_spec a b) end;
      simpl Z.eqb; cbv iota; Z.to_euclidean_division_equations; lia.
  - match goal with |- context [?a ?= ?b] => destruct (Z.compare_spec a b) end;
      simpl Z.eqb; cbv iota; Z.to_euclidean_division_equations; lia.
Qed.

Lemma calculateRemainingDays_calendar (tz now : Z) (s : string) (year month day : Z) :
  calendarDate s = Some (year, month, day) ->
  ExamWeek.calculateRemainingDays tz now s
  = Int ((daysFromCivil year month day * msPerDay - tz - now) ÷ msPerDay).
Proof.
  intros H. unfold ExamWeek.calculateRemainingDays.
  now rewrite (parseISO_calendarDate _ _ _ _ _ H), differenceInDays_full_days.
Qed.

Lemma calculateRemainingDays_Invalid (tz now : Z) (s : string) :
  parseISO tz s = Invalid -> ExamWeek.calculateRemainingDays tz now s = NaN.
Proof. intros H. unfold ExamWeek.calculateRemainingDays. now rewrite H. Qed.

(** C6, as the code has it: the calculator returns the number of full days
    of 24 hours from now to the local midnight that begins the exam's date,
    cut toward zero.  With the exam on 2024-01-15 and today 2024-01-10 it
    returns 5 when the local time of day is 00:00:00.000 and 4 at every
    later time of that day; with the exam on 2024-01-10 it returns 0 at
    every time of that day. *)
Theorem remaining_days_on_2024_01_10 :
  forall (tz timeOfDay : Z),
    0 <= timeOfDay < msPerDay ->
    let today := daysFromCivil 2024 1 10 * msPerDay - tz + timeOfDay in
    ExamWeek.calculateRemainingDays tz today "2024-01-15"
    = Int (if timeOfDay =? 0 then 5 else 4) /\
    ExamWeek.calculateRemainingDays tz today "2024-01-10" = Int 0.
Proof.
  intros tz timeOfDay Ht today. subst today.
  rewrite (calculateRemainingDays_calendar tz _ "2024-01-15" 2024 1 15) by reflexivity.
  rewrite (calculateRemainingDays_calendar tz _ "2024-01-10" 2024 1 10) by reflexivity.
  change (daysFromCivil 2024 1 15) with 19737.
  change (daysFromCivil 2024 1 10) with 19732.
  unfold msPerDay, msPerHour in *.
  split; f_equal.
  - destruct (Z.eqb_spec timeOfDay 0); Z.to_euclidean_division_equations; lia.
  - Z.to_euclidean_division_equations; lia.
Qed.

Lemma remaining_days_on_2024_01_10_witness :
  ExamWeek.calculateRemainingDays 0 Samples.noon_2024_01_10 "2024-01-15" = Int 4 /\
  ExamWeek.calculateRemainingDays 0 Samples.noon_2024_01_10 "2024-01-10" = Int 0.
Proof.
  apply (remaining_days_on_2024_01_10 0 (12 * msPerHour)).
  unfold msPerDay, msPerHour. lia.
Defined.

(** At noon of 2024-01-10 an exam on 2024-01-15 is 4 full days away, not 5. *)
Lemma remaining_days_at_noon :
  ExamWeek.calculateRemainingDays 0 Samples.noon_2024_01_10 "2024-01-15" = Int 4 /\
  ExamWeek.calculateRemainingDays 0 Samples.noon_2024_01_10 "2024-01-15" <> Int 5.
Proof. split; [reflexivity | discriminate]. Qed.

(** C7, at the date "not-a-date": the calculator returns NaN without
    raising, and the remaining-days cell of the row shows the text it shows
    for an exam that is today. *)
Theorem unparseable_date_shown_as_today :
  forall (tz now : Z),
    ExamWeek.calculateRemainingDays tz now (Server.date Samples.exam_unparseable) = NaN /\
    ExamWeek.remainingDays tz now Samples.exam_unparseable = Some NaN /\
    ExamWeek.remainingDaysCell (ExamWeek.remainingDays tz now Samples.exam_unparseable)
    = ExamWeek.todayText /\
    ExamWeek.remainingDaysCell (Some (Int 0)) = ExamWeek.todayText.
Proof. intros tz now. repeat split. Qed.

(** ** The remaining-days cell *)

Lemma daysText_not_todayText (n : Z) :
  ExamWeek.daysText (Some (Int n)) <> ExamWeek.todayText.
Proof.
  unfold ExamWeek.daysText, ExamWeek.toText, ExamWeek.todayText.
  destruct (Z.to_int n) as [d|d]; simpl.
  - destruct d; simpl; discriminate.
  - discriminate.
Qed.

(** C10: the remaining-days cell shows the count followed by " يوم" exactly
    when the count is a number greater than zero; for zero, a negative
    count, NaN and null it shows "اليوم". *)
Theorem remainingDaysCell_shows_count_iff_positive :
  (forall n : Z,
      0 < n ->
      ExamWeek.remainingDaysCell (Some (Int n))
      = (NilZero.string_of_int (Z.to_int n) ++ " يوم")%string) /\
  (forall v : option number,
      ExamWeek.remainingDaysCell v = "اليوم" <->
      ~ (exists n, v = Some (Int n) /\ 0 < n)) /\
  (forall (tz now : Z) (exam : Exam),
      ExamWeek.remainingDaysCell (ExamWeek.remainingDays tz now exam) = "اليوم" \/
      exists n, 0 < n /\
                ExamWeek.calculateRemainingDays tz now (Server.date exam) = Int n /\
                ExamWeek.remainingDaysCell (ExamWeek.remainingDays tz now exam)
                = (NilZero.string_of_int (Z.to_int n) ++ " يوم")%string).
Proof.
  assert (Hpos : forall n : Z,
             0 < n ->
             ExamWeek.remainingDaysCell (Some (Int n))
             = (NilZero.string_of_int (Z.to_int n) ++ " يوم")%string).
  { intros n Hn. unfold ExamWeek.remainingDaysCell, ExamWeek.truthy, ExamWeek.greaterThanZero.
    replace (n =? 0) with false by (symmetry; apply Z.eqb_neq; lia).
    replace (0 <? n) with true by (symmetry; apply Z.ltb_lt; lia).
    reflexivity. }
  assert (Hiff : forall v : option number,
             ExamWeek.remainingDaysCell v = "اليوم" <->
             ~ (exists n, v = Some (Int n) /\ 0 < n)).
  { intros v. split.
    - intros H [n [-> Hn]]. rewrite (Hpos n Hn) in H.
      exact (daysText_not_todayText n H).
    - intros H. destruct v as [[|n]|]; try reflexivity.
      unfold ExamWeek.remainingDaysCell, ExamWeek.truthy, ExamWeek.greaterThanZero.
      destruct (Z.ltb_spec 0 n) as [Hn|Hn].
      + exfalso. apply H. now exists n.
      + now rewrite andb_false_r. }
  split; [exact Hpos|]. split; [exact Hiff|].
  intros tz now exam.
  unfold ExamWeek.remainingDays.
  destruct (negb (Server.date exam =? "")%string); [|now left].
  destruct (ExamWeek.calculateRemainingDays tz now (Server.date exam)) as [|n] eqn:E;
    [now left|].
  destruct (Z.ltb_spec 0 n) as [Hn|Hn].
  - right. exists n. auto.
  - left. apply Hiff. intros [k [[= ->] Hk]]. lia.
Qed.

(** ** The timer of the sweep *)

(** C9: the sweep is armed with a period of 86,400,000 ms and is not called
    at startup: the number of sweeps started when [elapsed] ms have passed
    is the number of full periods in [elapsed], so there is none before
    86,400,000 ms have passed and the k-th starts at k times the period. *)
Theorem first_sweep_after_one_day :
  registerRoutes = [SetInterval DeleteExpiredExams 86400000] /\
  timerDelay (24 * 60 * 60 * 1000) = 86400000 /\
  (forall elapsed : Z,
      sweepsStarted registerRoutes elapsed
      = if elapsed <? 0 then 0 else elapsed / 86400000) /\
  (forall elapsed : Z,
      sweepsStarted registerRoutes elapsed = 0 <-> elapsed < 86400000) /\
  (forall k : Z,
      firing (24 * 60 * 60 * 1000) k = k * 86400000 /\
      (0 <= k -> sweepsStarted registerRoutes (firing (24 * 60 * 60 * 1000) k) = k) /\
      (1 <= k -> sweepsStarted registerRoutes (firing (24 * 60 * 60 * 1000) k - 1) = k - 1)).
Proof.
  assert (Hcount : forall elapsed : Z,
             sweepsStarted registerRoutes elapsed
             = if elapsed <? 0 then 0 else elapsed / 86400000).
  { intros elapsed. unfold sweepsStarted, registerRoutes, startsOf. simpl fold_right.
    change (timerDelay (24 * 60 * 60 * 1000)) with 86400000.
    rewrite Z.add_0_r. reflexivity. }
  split; [reflexivity|]. split; [reflexivity|]. split; [exact Hcount|].
  split.
  - intros elapsed. rewrite Hcount.
    destruct (Z.ltb_spec elapsed 0); [lia|].
    Z.to_euclidean_division_equations; lia.
  - intros k. change (firing (24 * 60 * 60 * 1000) k) with (k * 86400000).
    split; [reflexivity|]. rewrite !Hcount.
    split; intros Hk.
    + destruct (Z.ltb_spec (k * 86400000) 0); [lia|].
      Z.to_euclidean_division_equations; lia.
    + destruct (Z.ltb_spec (k * 86400000 - 1) 0); [lia|].
      Z.to_euclidean_division_equations; lia.
Qed.

(** ** Creating an exam *)

Lemma nonEmpty_false (s : string) : AddExamModal.nonEmpty s = false <-> s = "".
Proof.
  unfold AddExamModal.nonEmpty. rewrite negb_false_iff. apply String.eqb_eq.
Qed.

Lemma nonEmpty_true (s : string) : AddExamModal.nonEmpty s = true <-> s <> "".
Proof.
  unfold AddExamModal.nonEmpty. rewrite negb_true_iff. apply String.eqb_neq.
Qed.

(** A form with an empty field is turned down with the toast asking to fill
    every field, and nothing is handed to [addExam]. *)
Lemma handleSubmit_empty_field (addExam : InsertExam -> bool) (st : AddExamModal.FormState) :
  AddExamModal.subject st = "" \/ AddExamModal.date st = "" \/ AddExamModal.topics st = "" ->
  AddExamModal.handleSubmit addExam st
  = {| AddExamModal.toasts :=
         [ {| AddExamModal.title := "خطأ";
              AddExamModal.description := Some "يرجى ملء جميع الحقول";
              AddExamModal.destructive := true |} ];
       AddExamModal.requests := [];
       AddExamModal.fields := st;
       AddExamModal.closed := false |}.
Proof.
  intros H. unfold AddExamModal.handleSubmit.
  destruct H as [H|[H|H]]; apply nonEmpty_false in H; rewrite H; simpl;
    rewrite ?orb_true_r; reflexivity.
Qed.

(** What the form hands to [addExam] has no empty field, and each of its
    topics has a character that is not white space. *)
Lemma handleSubmit_requests (addExam : InsertExam -> bool) (st : AddExamModal.FormState)
      (exam : InsertExam) :
  In exam (AddExamModal.requests (AddExamModal.handleSubmit addExam st)) ->
  newSubject exam = AddExamModal.subject st /\
  newDate exam = AddExamModal.date st /\
  newSubject exam <> "" /\
  newDate exam <> "" /\
  newTopics exam <> [] /\
  (forall topic, In topic (newTopics exam) -> AddExamModal.trim topic <> "").
Proof.
  unfold AddExamModal.handleSubmit.
  destruct (AddExamModal.nonEmpty (AddExamModal.subject st)) eqn:Hs; simpl; [|tauto].
  destruct (AddExamModal.nonEmpty (AddExamModal.date st)) eqn:Hd; simpl; [|tauto].
  destruct (AddExamModal.nonEmpty (AddExamModal.topics st)) eqn:Ht; simpl; [|tauto].
  set (topicsArray := filter _ _).
  destruct (Nat.eqb (List.length topicsArray) 0) eqn:Hlen; simpl; [tauto|].
  assert (Hgoal : forall e : InsertExam,
             e = {| newSubject := AddExamModal.subject st;
                    newDate := AddExamModal.date st;
                    newTopics := topicsArray |} ->
             newSubject e = AddExamModal.subject st /\
             newDate e = AddExamModal.date st /\
             newSubject e <> "" /\ newDate e <> "" /\ newTopics e <> [] /\
             (forall topic, In topic (newTopics e) -> AddExamModal.trim topic <> "")).
  { intros e ->. simpl.
    repeat split; try (now apply nonEmpty_true).
    - intros Hnil. rewrite Hnil in Hlen. discriminate.
    - intros topic Hin. subst topicsArray. apply filter_In in Hin.
      now apply nonEmpty_true. }
  destruct (addExam _); simpl; intros [H|[]]; apply Hgoal; now symmetry.
Qed.

(** The route stores nothing when the schema turns the body down. *)
Lemma postExam_rejected (m : Machine) (safeParse : ExamBody -> option InsertExam)
      (body : ExamBody) (w : World) :
  safeParse body = None -> postExam m safeParse body w = (Returned Json400, w).
Proof. intros H. unfold postExam, tryCatch. now rewrite H. Qed.

(** The route stores at most the exam the schema read from the body. *)
Lemma postExam_accepted (m : Machine) (safeParse : ExamBody -> option InsertExam)
      (body : ExamBody) (data : InsertExam) (w : World) :
  safeParse body = Some data ->
  postExam m safeParse body w
  = if createExamFails m
    then (Returned Json500,
          {| store := store w; console := console w ++ [LogCreateError StoreError];
             clockReads := clockReads w |})
    else
      let exam := {| id := nextId (store w); Server.subject := newSubject data;
                     Server.date := newDate data; Server.topics := newTopics data |} in
      (Returned (Json201 exam),
       {| store := store w ++ [exam]; console := console w; clockReads := clockReads w |}).
Proof.
  intros H. unfold postExam, tryCatch, bind, createExam. rewrite H.
  destruct (createExamFails m); reflexivity.
Qed.

Lemma insertExamSchema_rejects (body : ExamBody) :
  AddExamModal.missingOrEmpty (bodySubject body) \/
  AddExamModal.missingOrEmpty (bodyDate body) \/
  AddExamModal.noTopics (bodyTopics body) ->
  insertExamSchema body = None.
Proof.
  unfold insertExamSchema, AddExamModal.missingOrEmpty, AddExamModal.noTopics.
  destruct (bodySubject body) as [s|], (bodyDate body) as [d|], (bodyTopics body) as [ts|];
    intros [[H|H]|[[H|H]|[H|H]]]; try discriminate; try reflexivity;
    injection H as ->; try reflexivity.
  - now rewrite andb_false_r.
  - now rewrite andb_false_r.
Qed.

Lemma insertExamSchema_accepts (body : ExamBody) (data : InsertExam) :
  insertExamSchema body = Some data ->
  In (newSubject data) subjectCodes /\
  newSubject data <> "" /\ newDate data <> "" /\ newTopics data <> [] /\
  calendarDate (newDate data) <> None.
Proof.
  unfold insertExamSchema.
  destruct (bodySubject body) as [s|], (bodyDate body) as [d|], (bodyTopics body) as [ts|];
    try discriminate.
  destruct (existsb (String.eqb s) subjectCodes) eqn:Hs; [|discriminate].
  destruct (calendarDate d) as [ymd|] eqn:Hd; [|discriminate].
  destruct ts as [|t ts]; [discriminate|].
  simpl. intros [= <-]. simpl.
  apply existsb_exists in Hs. destruct Hs as [code [Hin Heq]].
  apply String.eqb_eq in Heq. subst code.
  split; [exact Hin|].
  split; [intros ->; simpl in Hin; intuition discriminate|].
  split; [intros ->; discriminate|].
  split; [discriminate|]. rewrite Hd. discriminate.
Qed.

(** C8: creating an exam is turned down, with an error for the caller and
    nothing stored, whenever the subject, the date or the topics is missing
    or empty: the form shows an error toast and makes no request, and the
    route answers 400 and leaves the store as it was.  So every exam the
    route stores has topics that are not empty and a date that parses as a
    calendar date. *)
Theorem creation_rejects_missing_or_empty :
  (forall (addExam : InsertExam -> bool) (st : AddExamModal.FormState),
      AddExamModal.subject st = "" \/ AddExamModal.date st = "" \/ AddExamModal.topics st = "" ->
      AddExamModal.requests (AddExamModal.handleSubmit addExam st) = [] /\
      exists toast,
        AddExamModal.toasts (AddExamModal.handleSubmit addExam st) = [toast] /\
        AddExamModal.destructive toast = true) /\
  (forall (addExam : InsertExam -> bool) (st : AddExamModal.FormState) (exam : InsertExam),
      In exam (AddExamModal.requests (AddExamModal.handleSubmit addExam st)) ->
      newSubject exam <> "" /\ newDate exam <> "" /\ newTopics exam <> [] /\
      (forall topic, In topic (newTopics exam) -> AddExamModal.trim topic <> "")) /\
  (forall (m : Machine) (body : ExamBody) (w : World),
      AddExamModal.missingOrEmpty (bodySubject body) \/
      AddExamModal.missingOrEmpty (bodyDate body) \/
      AddExamModal.noTopics (bodyTopics body) ->
      postExam m insertExamSchema body w = (Returned Json400, w)) /\
  (forall (m : Machine) (body : ExamBody) (w w' : World) (r : Outcome Response) (exam : Exam),
      postExam m insertExamSchema body w = (r, w') ->
      In exam (store w') ->
      In exam (store w) \/
      (Server.subject exam <> "" /\ Server.date exam <> "" /\ Server.topics exam <> [] /\
       calendarDate (Server.date exam) <> None)).
Proof.
  split; [|split; [|split]].
  - intros addExam st H. rewrite (handleSubmit_empty_field addExam st H). simpl.
    split; [reflexivity|]. eexists. split; reflexivity.
  - intros addExam st exam H.
    destruct (handleSubmit_requests addExam st exam H) as (_ & _ & H1 & H2 & H3 & H4).
    auto.
  - intros m body w H. apply postExam_rejected. now apply insertExamSchema_rejects.
  - intros m body w w' r exam H Hin.
    destruct (insertExamSchema body) as [data|] eqn:E.
    + rewrite (postExam_accepted _ _ _ _ _ E) in H.
      destruct (createExamFails m); inversion H; subst; clear H; simpl in Hin.
      * now left.
      * apply in_app_or in Hin. destruct Hin as [Hin|[<-|[]]]; [now left|].
        right. simpl.
        destruct (insertExamSchema_accepts body data E) as (_ & H1 & H2 & H3 & H4).
        auto.
    + rewrite (postExam_rejected _ _ _ _ E) in H. inversion H; subst. now left.
Qed.

(** A form whose date is no calendar date hands its exam over, and the
    route turns the exam down and stores nothing; an exam with a calendar
    date is stored. *)
Example unparseable_date_is_turned_down :
  AddExamModal.requests (AddExamModal.handleSubmit (fun _ => true) Samples.form_unparseable)
  = [Samples.insert_unparseable] /\
  postExam (Samples.sound Samples.at_11_00) insertExamSchema
           (AddExamModal.bodyOf Samples.insert_unparseable) (Samples.fresh [])
  = (Returned Json400, Samples.fresh []) /\
  postExam (Samples.sound Samples.at_11_00) insertExamSchema
           (AddExamModal.bodyOf Samples.insert_2024_01_10) (Samples.fresh [])
  = (Returned (Json201 Samples.exam_2024_01_10), Samples.fresh [Samples.exam_2024_01_10]).
Proof. repeat split. Qed.

(** The form turns down topics that are blank lines only. *)
Example handleSubmit_blank_topics :
  AddExamModal.requests
    (AddExamModal.handleSubmit
       (fun _ => true)
       {| AddExamModal.subject := "math";
          AddExamModal.date := "2024-01-10";
          AddExamModal.topics := String " " (String AddExamModal.newline (String " " EmptyString)) |})
  = [].
Proof. reflexivity. Qed.

Example split_lines :
  AddExamModal.split AddExamModal.newline
    (String "a" (String AddExamModal.newline (String "b" (String AddExamModal.newline EmptyString))))
  = ["a"; "b"; ""].
Proof. reflexivity. Qed.

Example trim_spaces : AddExamModal.trim "  ch 1 " = "ch 1".
Proof. reflexivity. Qed.

(** ** More on the sweep *)

Lemma consoleWrite_sweep_error (e : Thrown) (w : World) :
  consoleWrite (LogSweepError e) w
  = (Returned tt,
     {| store := store w; console := console w ++ [LogSweepError e];
        clockReads := clockReads w |}).
Proof. reflexivity. Qed.

(** The loop only adds lines to the console. *)
Lemma forOf_sweep_console (m : Machine) (l : list Exam) :
  forall w o w',
    forOf l (sweepExam m) w = (o, w') ->
    exists added, console w' = console w ++ added.
Proof.
  induction l as [|e l IH]; intros w o w' H.
  - inversion H; subst. exists []. now rewrite app_nil_r.
  - rewrite forOf_cons in H.
    destruct (sweepExam_cases m e w) as [E|[E|[_ E]]]; rewrite E in H.
    + apply IH in H. exact H.
    + inversion H; subst. exists []. simpl. now rewrite app_nil_r.
    + apply IH in H. destruct H as [added H]. simpl in H.
      exists (LogDeleted (id e) :: added). rewrite H, <- app_assoc. reflexivity.
Qed.

(** X1: the sweep never throws to the timer that calls it, whatever the store
    does; it adds no record and erases no line of the console. *)
Theorem deleteExpiredExams_never_throws :
  forall (m : Machine) (w : World),
  exists (w' : World) (added : list LogEntry),
    deleteExpiredExams m w = (Returned tt, w') /\
    incl (store w') (store w) /\
    console w' = console w ++ added.
Proof.
  intros m w. destruct (getExamsFails m) eqn:L.
  - rewrite (deleteExpiredExams_list_fails _ _ L).
    eexists. exists [LogSweepError StoreError]. simpl.
    split; [reflexivity|]. split; [apply incl_refl | reflexivity].
  - rewrite (deleteExpiredExams_list_ok _ _ L).
    destruct (forOf (store w) (sweepExam m) w) as [[[]|e] w1] eqn:E.
    + destruct (forOf_sweep_console _ _ _ _ _ E) as [added Hc].
      exists w1, added. split; [reflexivity|]. split; [|exact Hc].
      intros x Hx. exact (forOf_sweep_incl _ _ _ _ _ _ E Hx).
    + destruct (forOf_sweep_console _ _ _ _ _ E) as [added Hc].
      rewrite consoleWrite_sweep_error.
      eexists. exists (added ++ [LogSweepError e]). simpl.
      split; [reflexivity|]. split.
      * intros x Hx. exact (forOf_sweep_incl _ _ _ _ _ _ E Hx).
      * now rewrite Hc, app_assoc.
Qed.

(** Two stored exams with the same id are the same exam, when ids are not
    repeated. *)
Lemma same_id_same_exam (l : list Exam) (e x : Exam) :
  NoDup (map id l) -> In e l -> In x l -> id e = id x -> e = x.
Proof.
  induction l as [|a l IH]; intros Hnd He Hx Hid; [destruct He|].
  simpl in Hnd. inversion Hnd as [|? ? Hnotin Hnd']; subst.
  destruct He as [->|He], Hx as [->|Hx]; auto.
  - exfalso. apply Hnotin. rewrite Hid. now apply in_map.
  - exfalso. apply Hnotin. rewrite <- Hid. now apply in_map.
Qed.

(** The loop spares every record that no visited exam, expired when it is
    visited, shares its id with. *)
Lemma forOf_sweep_spares (m : Machine) (l : list Exam) :
  forall w o w' x,
    forOf l (sweepExam m) w = (o, w') ->
    In x (store w) ->
    (forall e k, In e l -> examExpired m e (At (clock m k)) = true -> id e <> id x) ->
    In x (store w').
Proof.
  induction l as [|e l IH]; intros w o w' x H Hin Hsafe.
  - inversion H; subst. exact Hin.
  - rewrite forOf_cons in H.
    destruct (examExpired m e (At (clock m (clockReads w)))) eqn:E0.
    + destruct (deleteExamFails m (id e)) eqn:F0.
      * rewrite (sweepExam_delete_fails _ _ _ E0 F0) in H. inversion H; subst. exact Hin.
      * rewrite (sweepExam_deletes _ _ _ E0 F0) in H.
        eapply IH; [exact H | | intros e' k He'; apply Hsafe; now right].
        simpl. apply filter_In. split; [exact Hin|].
        unfold hasId. apply negb_true_iff, Z.eqb_neq.
        intros Heq. apply (Hsafe e (clockReads w)); [now left | exact E0 | now symmetry].
    + rewrite (sweepExam_not_expired _ _ _ E0) in H.
      eapply IH; [exact H | exact Hin | intros e' k He'; apply Hsafe; now right].
Qed.

(** X3: on any machine, with any clock, any failures of the store and
    whatever the library makes of the date strings, the sweep keeps an exam
    that the test reports expired at no reading of the clock, when ids are
    not repeated among the records. *)
Theorem sweep_keeps_unexpired :
  forall (m : Machine) (exams : list Exam) (x : Exam),
    NoDup (map id exams) ->
    In x exams ->
    (forall k, examExpired m x (At (clock m k)) = false) ->
    In x (fst (sweep m exams)).
Proof.
  intros m exams x Hnd Hx Hnever. unfold sweep.
  destruct (getExamsFails m) eqn:L.
  - now rewrite (deleteExpiredExams_list_fails _ _ L).
  - rewrite (deleteExpiredExams_list_ok _ _ L). simpl store at 2.
    assert (Hsafe : forall e k, In e exams ->
                                examExpired m e (At (clock m k)) = true -> id e <> id x).
    { intros e k He Hexp Hid.
      rewrite (same_id_same_exam exams e x Hnd He Hx Hid) in Hexp.
      rewrite Hnever in Hexp. discriminate. }
    destruct (forOf exams (sweepExam m) _) as [[[]|e] w1] eqn:E.
    + simpl. eapply forOf_sweep_spares; [exact E | exact Hx | exact Hsafe].
    + rewrite consoleWrite_sweep_error. simpl.
      eapply forOf_sweep_spares; [exact E | exact Hx | exact Hsafe].
Qed.

Lemma sweep_keeps_unexpired_witness :
  In Samples.exam_2024_01_15
     (fst (sweep (Samples.flaky Samples.at_11_00)
                 [Samples.exam_2024_01_10; Samples.exam_2024_01_15; Samples.exam_2024_01_08])).
Proof.
  apply (sweep_keeps_unexpired
           (Samples.flaky Samples.at_11_00)
           [Samples.exam_2024_01_10; Samples.exam_2024_01_15; Samples.exam_2024_01_08]
           Samples.exam_2024_01_15).
  - simpl. repeat constructor; simpl; intuition discriminate.
  - right. now left.
  - intros k. reflexivity.
Defined.

Lemma filter_twice {A : Type} (f g : A -> bool) (l : list A) :
  filter f (filter g l) = filter (fun x => g x && f x) l.
Proof.
  induction l as [|a l IH]; [reflexivity|].
  simpl. destruct (g a); simpl; [destruct (f a)|]; now rewrite IH.
Qed.

Section SoundStore.

Variable m : Machine.
Variable now : Z.
Hypothesis clock_stands : forall k, clock m k = now.
Hypothesis deletes_work : forall examId, deleteExamFails m examId = false.

(** The loop on a store that deletes without failing: it removes the
    records carrying the id of an expired exam of the list and reports each
    expired exam, in the order of the list. *)
Lemma forOf_sweep_exact (l : list Exam) :
  forall w,
    forOf l (sweepExam m) w
    = (Returned tt,
       {| store :=
            filter (fun x => negb (existsb (fun e => examExpired m e (At now) && hasId (id e) x) l))
                   (store w);
          console :=
            console w ++ map LogDeleted (map id (filter (fun e => examExpired m e (At now)) l));
          clockReads := (clockReads w + List.length l)%nat |}).
Proof.
  induction l as [|e l IH]; intros w.
  - simpl. rewrite app_nil_r, Nat.add_0_r.
    replace (filter (fun _ : Exam => true) (store w)) with (store w);
      [now destruct w|].
    clear. induction (store w) as [|a s IHs]; [reflexivity|]. simpl. now rewrite <- IHs.
  - rewrite forOf_cons.
    destruct (examExpired m e (At now)) eqn:E.
    + rewrite sweepExam_deletes by (rewrite ?clock_stands; auto).
      rewrite IH. simpl. rewrite E. simpl.
      rewrite filter_twice, <- app_assoc, Nat.add_succ_r. simpl.
      do 2 f_equal. apply filter_ext. intros x. now rewrite negb_orb.
    + rewrite sweepExam_not_expired by (rewrite clock_stands; exact E).
      rewrite IH. simpl. rewrite E. simpl. now rewrite Nat.add_succ_r.
Qed.

End SoundStore.

(** X2: on any machine whose store does not fail and whose clock stands at
    [now], whatever the library makes of the date strings, and with no id
    held twice, the sweep leaves exactly the exams that are not expired, in
    their order, and reports exactly the expired ones, in their order. *)
Theorem sweep_removes_exactly_the_expired :
  forall (m : Machine) (now : Z) (exams : list Exam),
    (forall k, clock m k = now) ->
    getExamsFails m = false ->
    (forall examId, deleteExamFails m examId = false) ->
    NoDup (map id exams) ->
    sweep m exams
    = (filter (fun x => negb (examExpired m x (At now))) exams,
       map LogDeleted (map id (filter (fun x => examExpired m x (At now)) exams))).
Proof.
  intros m now exams Hclock Hlist Hdelete Hnd. unfold sweep.
  rewrite (deleteExpiredExams_list_ok _ _ Hlist). cbn [store].
  rewrite (forOf_sweep_exact m now Hclock Hdelete).
  cbn [snd store console app]. f_equal. apply filter_ext_in. intros x Hx. f_equal.
  apply Bool.eq_iff_eq_true. rewrite existsb_exists. split.
  - intros [e [He Hb]]. apply andb_true_iff in Hb. destruct Hb as [Hexp Hid].
    unfold hasId in Hid. apply Z.eqb_eq in Hid.
    now rewrite <- (same_id_same_exam exams e x Hnd He Hx (eq_sym Hid)).
  - intros Hexp. exists x. split; [exact Hx|].
    rewrite Hexp. unfold hasId. now rewrite Z.eqb_refl.
Qed.

Lemma sweep_removes_exactly_the_expired_witness :
  sweep (Samples.sound Samples.at_11_00)
        [Samples.exam_2024_01_10; Samples.exam_2024_01_15]
  = ([Samples.exam_2024_01_15], [LogDeleted 1]).
Proof.
  apply (sweep_removes_exactly_the_expired
           (Samples.sound Samples.at_11_00) Samples.at_11_00
           [Samples.exam_2024_01_10; Samples.exam_2024_01_15]).
  - intros k. reflexivity.
  - reflexivity.
  - intros examId. reflexivity.
  - simpl. repeat constructor; simpl; intuition discriminate.
Defined.

(** Deletion goes by id: a record that is not expired is removed with an
    expired one that carries the same id. *)
Example sweep_shared_id :
  sweep (Samples.sound Samples.at_11_00)
        [Samples.exam_2024_01_10;
         {| id := 1; Server.subject := "physics"; Server.date := "2024-01-15";
            Server.topics := ["ch2"] |}]
  = ([], [LogDeleted 1]).
Proof. reflexivity. Qed.

Lemma deletedIds_app (a b : list LogEntry) :
  deletedIds (a ++ b) = deletedIds a ++ deletedIds b.
Proof. unfold deletedIds. apply flat_map_app. Qed.

(** What the loop reports as deleted: the id of an exam of the list that was
    expired at a reading of the clock, and an id no record carries when the
    loop ends. *)
Lemma forOf_sweep_reports (m : Machine) (l : list Exam) :
  forall w o w' i,
    forOf l (sweepExam m) w = (o, w') ->
    In i (deletedIds (console w')) ->
    In i (deletedIds (console w)) \/
    ((exists e k, In e l /\ id e = i /\ examExpired m e (At (clock m k)) = true) /\
     (forall x, In x (store w') -> id x <> i)).
Proof.
  induction l as [|e l IH]; intros w o w' i H Hi.
  - inversion H; subst. now left.
  - rewrite forOf_cons in H.
    destruct (examExpired m e (At (clock m (clockReads w)))) eqn:E0.
    + destruct (deleteExamFails m (id e)) eqn:F0.
      * rewrite (sweepExam_delete_fails _ _ _ E0 F0) in H. inversion H; subst. now left.
      * rewrite (sweepExam_deletes _ _ _ E0 F0) in H.
        destruct (IH _ _ _ _ H Hi) as [Hold|[[e' [k [He' Hk]]] Hgone]].
        -- simpl in Hold. rewrite deletedIds_app in Hold.
           apply in_app_or in Hold. destruct Hold as [Hold|[<-|[]]]; [now left|].
           right. split.
           ++ exists e, (clockReads w). split; [now left|]. auto.
           ++ intros x Hx. apply (forOf_sweep_incl _ _ _ _ _ _ H) in Hx.
              simpl in Hx. apply filter_In in Hx. destruct Hx as [_ Hx].
              unfold hasId in Hx. now apply negb_true_iff, Z.eqb_neq in Hx.
        -- right. split; [|exact Hgone].
           exists e', k. split; [now right | exact Hk].
    + rewrite (sweepExam_not_expired _ _ _ E0) in H.
      destruct (IH _ _ _ _ H Hi) as [Hold|[[e' [k [He' Hk]]] Hgone]]; [now left|].
      right. split; [|exact Hgone].
      exists e', k. split; [now right | exact Hk].
Qed.

(** X4: the console does not lie: on any machine, an id the sweep reports as
    deleted is the id of a listed exam that was expired at a reading of the
    clock, and no record carries it after the run. *)
Theorem sweep_reports_only_deleted_expired :
  forall (m : Machine) (exams : list Exam) (i : Z),
    In i (deletedIds (snd (sweep m exams))) ->
    (exists e k, In e exams /\ id e = i /\ examExpired m e (At (clock m k)) = true) /\
    (forall x, In x (fst (sweep m exams)) -> id x <> i).
Proof.
  intros m exams i. unfold sweep.
  destruct (getExamsFails m) eqn:L.
  - rewrite (deleteExpiredExams_list_fails _ _ L). simpl. tauto.
  - rewrite (deleteExpiredExams_list_ok _ _ L). cbn [store].
    destruct (forOf exams (sweepExam m) _) as [[[]|e] w1] eqn:E.
    + simpl. intros Hi.
      destruct (forOf_sweep_reports _ _ _ _ _ _ E Hi) as [[]|H]. exact H.
    + rewrite consoleWrite_sweep_error. simpl. rewrite deletedIds_app. simpl.
      rewrite app_nil_r. intros Hi.
      destruct (forOf_sweep_reports _ _ _ _ _ _ E Hi) as [[]|H]. exact H.
Qed.

Lemma sweep_reports_only_deleted_expired_witness :
  exists e k,
    In e [Samples.exam_2024_01_10; Samples.exam_2024_01_15] /\ id e = 1 /\
    examExpired (Samples.sound Samples.at_11_00) e
                (At (clock (Samples.sound Samples.at_11_00) k)) = true.
Proof.
  apply (sweep_reports_only_deleted_expired
           (Samples.sound Samples.at_11_00)
           [Samples.exam_2024_01_10; Samples.exam_2024_01_15] 1).
  simpl. now left.
Defined.

(** ** More on the expiry test *)

(** X5: once expired, always expired: the test never goes back to false as the
    clock advances, whatever the date string of the exam. *)
Theorem examExpired_stays_expired :
  forall (m : Machine) (exam : Exam) (now later : Z),
    now <= later ->
    examExpired m exam (At now) = true ->
    examExpired m exam (At later) = true.
Proof.
  intros m exam now later Hle. unfold examExpired, utcToZonedTime, zoneOffset.
  simpl String.eqb. cbv iota.
  destruct (setHours (localOffset m)
                     (parseISOWith (otherDates m) (localOffset m) (Server.date exam)) 10)
    as [|t]; simpl; [discriminate|].
  rewrite !Z.ltb_lt. lia.
Qed.

Lemma examExpired_stays_expired_witness :
  examExpired (Samples.sound Samples.at_11_00) Samples.exam_2024_01_08
              (At Samples.at_11_00) = true.
Proof.
  apply (examExpired_stays_expired
           (Samples.sound Samples.at_11_00) Samples.exam_2024_01_08
           Samples.at_09_00 Samples.at_11_00).
  - vm_compute. discriminate.
  - reflexivity.
Defined.

(** X6: an exam dated before the current day of Asia/Riyadh is expired at every
    time of that day, and an exam dated after it is not expired at any. *)
Theorem examExpired_other_days :
  forall (m : Machine) (exam : Exam) (now year month day : Z),
    calendarDate (Server.date exam) = Some (year, month, day) ->
    (daysFromCivil year month day < Riyadh.dayOf now -> examExpired m exam (At now) = true) /\
    (Riyadh.dayOf now < daysFromCivil year month day -> examExpired m exam (At now) = false).
Proof.
  intros m exam now year month day H.
  rewrite (examExpired_calendar _ _ _ _ _ _ H).
  unfold Riyadh.dayOf, Riyadh.instantOf, Riyadh.cutoffHour, Riyadh.wallClock, Riyadh.offset.
  unfold msPerDay, msPerHour.
  split; intros Hd; [apply Z.ltb_lt | apply Z.ltb_ge];
    Z.to_euclidean_division_equations; lia.
Qed.

Lemma examExpired_other_days_witness :
  examExpired (Samples.sound Samples.at_09_00) Samples.exam_2024_01_09
              (At Samples.at_09_00) = true.
Proof.
  apply (examExpired_other_days
           (Samples.sound Samples.at_09_00) Samples.exam_2024_01_09 Samples.at_09_00 2024 1 9).
  - reflexivity.
  - vm_compute. reflexivity.
Defined.

(** X7: the zone of the server plays no part in the test for an exam whose date
    is a calendar date: two machines in different zones agree at every
    instant. *)
Theorem examExpired_any_server_zone :
  forall (m m' : Machine) (exam : Exam) (now year month day : Z),
    calendarDate (Server.date exam) = Some (year, month, day) ->
    examExpired m exam (At now) = examExpired m' exam (At now).
Proof.
  intros m m' exam now year month day H.
  now rewrite !(examExpired_calendar _ _ _ _ _ _ H).
Qed.

Lemma examExpired_any_server_zone_witness :
  examExpired (machineAt (-18000000) Samples.at_11_00 false Samples.neverFails)
              Samples.exam_2024_01_10 (At Samples.at_11_00)
  = examExpired (machineAt 19800000 Samples.at_11_00 false Samples.neverFails)
                Samples.exam_2024_01_10 (At Samples.at_11_00).
Proof.
  apply (examExpired_any_server_zone
           (machineAt (-18000000) Samples.at_11_00 false Samples.neverFails)
           (machineAt 19800000 Samples.at_11_00 false Samples.neverFails)
           Samples.exam_2024_01_10 Samples.at_11_00 2024 1 10).
  reflexivity.
Defined.

(** ** The calendar: day numbers and civil dates *)

(** Within an era of 400 years, the year of a day of the era. *)
Lemma year_of_era (yoe doy : Z) :
  0 <= yoe < 400 -> 0 <= doy ->
  doy <= 364 + (if isLeapYearIndex (yoe + 1) then 1 else 0) ->
  let doe := yoe * 365 + yoe / 4 - yoe / 100 + doy in
  (doe - doe / 1460 + doe / 36524 - doe / 146096) / 365 = yoe /\ 0 <= doe < 146097.
Proof.
  intros Hy Hd Hl doe. subst doe. unfold isLeapYearIndex in Hl.
  destruct (Z.eqb_spec ((yoe + 1) mod 400) 0);
    destruct (Z.eqb_spec ((yoe + 1) mod 4) 0);
    destruct (Z.eqb_spec ((yoe + 1) mod 100) 0); simpl in Hl;
    Z.to_euclidean_division_equations; lia.
Qed.

Lemma civilFromDays_of_era (era yoe doy : Z) :
  0 <= yoe < 400 -> 0 <= doy ->
  doy <= 364 + (if isLeapYearIndex (yoe + 1) then 1 else 0) ->
  Js.civilFromDays (era * 146097 + (yoe * 365 + yoe / 4 - yoe / 100 + doy) - 719468)
  = let mp := (5 * doy + 2) / 153 in
    let month := if mp <? 10 then mp + 3 else mp - 9 in
    (yoe + era * 400 + (if month <=? 2 then 1 else 0), month, doy - (153 * mp + 2) / 5 + 1).
Proof.
  intros Hy Hd Hl.
  destruct (year_of_era yoe doy Hy Hd Hl) as [Hyoe Hdoe].
  set (doe := yoe * 365 + yoe / 4 - yoe / 100 + doy) in *.
  unfold Js.civilFromDays.
  replace (era * 146097 + doe - 719468 + 719468) with (doe + era * 146097) by lia.
  rewrite Z.div_add by discriminate.
  rewrite (Z.div_small doe 146097) by lia.
  replace (doe + era * 146097 - (0 + era) * 146097) with doe by lia.
  rewrite Hyoe.
  replace (doe - (365 * yoe + yoe / 4 - yoe / 100)) with doy by (subst doe; lia).
  reflexivity.
Qed.

Lemma isLeapYearIndex_era (era yoe : Z) :
  isLeapYearIndex (era * 400 + yoe) = isLeapYearIndex yoe.
Proof.
  unfold isLeapYearIndex.
  replace ((era * 400 + yoe) mod 400) with (yoe mod 400)
    by (Z.to_euclidean_division_equations; lia).
  replace ((era * 400 + yoe) mod 4) with (yoe mod 4)
    by (Z.to_euclidean_division_equations; lia).
  replace ((era * 400 + yoe) mod 100) with (yoe mod 100)
    by (Z.to_euclidean_division_equations; lia).
  reflexivity.
Qed.

(** The month a day of the year falls in, the year running from March. *)
Lemma month_of_day_of_year (mp day : Z) :
  0 <= mp <= 11 -> 1 <= day ->
  day <= (153 * (mp + 1) + 2) / 5 - (153 * mp + 2) / 5 ->
  (5 * ((153 * mp + 2) / 5 + day - 1) + 2) / 153 = mp.
Proof. intros Hmp Hd1 Hd2. Z.to_euclidean_division_equations; lia. Qed.

(** The civil date of the day number of a date that exists is that date. *)
Lemma civilFromDays_daysFromCivil (year month day : Z) :
  validateDate year month day = true ->
  Js.civilFromDays (daysFromCivil year month day) = (year, month, day).
Proof.
  unfold validateDate. rewrite !andb_true_iff, !Z.leb_le.
  intros [[[Hm1 Hm2] Hd1] Hd2].
  unfold daysFromCivil.
  set (y := if month <=? 2 then year - 1 else year).
  set (era := y / 400).
  assert (Hyoe : 0 <= y - era * 400 < 400)
    by (subst era; Z.to_euclidean_division_equations; lia).
  set (yoe := y - era * 400) in *.
  set (mp := if month <=? 2 then month + 9 else month - 3).
  assert (Hmp : 0 <= mp <= 11) by (subst mp; destruct (Z.leb_spec month 2); lia).
  assert (Hleap : month <= 2 -> isLeapYearIndex year = isLeapYearIndex (yoe + 1)).
  { intros Hle. rewrite <- (isLeapYearIndex_era era (yoe + 1)). f_equal.
    subst yoe y. destruct (Z.leb_spec month 2); lia. }
  assert (Hlen : day <= (153 * (mp + 1) + 2) / 5 - (153 * mp + 2) / 5 /\
                 (153 * mp + 2) / 5 + day - 1
                 <= 364 + (if isLeapYearIndex (yoe + 1) then 1 else 0)).
  { assert (Hcases : month = 1 \/ month = 2 \/ month = 3 \/ month = 4 \/ month = 5 \/
                     month = 6 \/ month = 7 \/ month = 8 \/ month = 9 \/ month = 10 \/
                     month = 11 \/ month = 12) by lia.
    unfold daysInMonth in Hd2. clear Hmp.
    destruct Hcases as [->|[->|[->|[->|[->|[->|[->|[->|[->|[->|[->| ->]]]]]]]]]]];
      simpl in Hd2; try (rewrite Hleap in Hd2 by lia);
      (let v := eval vm_compute in mp in change mp with v);
      revert Hd2; destruct (isLeapYearIndex (yoe + 1)); intros Hd2;
      Z.to_euclidean_division_equations; lia. }
  destruct Hlen as [Hlen Hdoy].
  rewrite civilFromDays_of_era;
    [ | exact Hyoe | Z.to_euclidean_division_equations; lia | exact Hdoy ].
  cbv zeta. rewrite (month_of_day_of_year mp day Hmp Hd1 Hlen).
  replace ((153 * mp + 2) / 5 + day - 1 - (153 * mp + 2) / 5 + 1) with day by lia.
  assert (Hmonth : (if mp <? 10 then mp + 3 else mp - 9) = month).
  { subst mp. destruct (Z.leb_spec month 2), (Z.ltb_spec (month + 9) 10),
      (Z.ltb_spec (month - 3) 10); lia. }
  rewrite Hmonth. f_equal. f_equal.
  subst yoe y. destruct (Z.leb_spec month 2); lia.
Qed.

(** ** The date cell *)

Lemma calendarDate_valid (s : string) (year month day : Z) :
  calendarDate s = Some (year, month, day) ->
  validateDate year month day = true /\ s <> "".
Proof.
  intros H. split; [|intros ->; discriminate].
  unfold calendarDate in H.
  destruct (list_ascii_of_string s) as [|y1 [|y2 [|y3 [|y4 [|s1 [|m1 [|m2 [|s2 [|d1 [|d2 [|]]]]]]]]]]];
    try discriminate.
  destruct (isDash s1 && isDash s2); [|discriminate].
  destruct (digitsFrom 0 [y1; y2; y3; y4]) as [y|]; [|discriminate].
  destruct (digitsFrom 0 [m1; m2]) as [mo|]; [|discriminate].
  destruct (digitsFrom 0 [d1; d2]) as [d|]; [|discriminate].
  destruct (validateDate y mo d) eqn:V; [|discriminate].
  now inversion H; subst.
Qed.

Lemma dateCell_calendar (tz : Z) (exam : Exam) (year month day : Z) :
  calendarDate (Server.date exam) = Some (year, month, day) ->
  ExamTable.dateCell tz exam
  = Js.format_dd_MM_yyyy tz (daysFromCivil year month day * msPerDay).
Proof.
  intros H. destruct (calendarDate_valid _ _ _ _ H) as [_ Hne].
  unfold ExamTable.dateCell, ExamTable.getTime. rewrite H.
  apply String.eqb_neq in Hne. now rewrite Hne.
Qed.

(** X13: the date cell shows the day the browser's zone is in at midnight UTC of
    the exam's date: for a browser at or east of UTC, the exam's date as
    dd/MM/yyyy; for a browser west of UTC, the day before. *)
Theorem dateCell_shows_local_day :
  forall (tz : Z) (exam : Exam) (year month day : Z),
    calendarDate (Server.date exam) = Some (year, month, day) ->
    0 < year ->
    (0 <= tz < msPerDay ->
     ExamTable.dateCell tz exam
     = (Js.addLeadingZeros day 2 ++ "/" ++ Js.addLeadingZeros month 2 ++ "/"
        ++ Js.addLeadingZeros year 4)%string) /\
    (- msPerDay <= tz < 0 -> 1 < day ->
     ExamTable.dateCell tz exam
     = (Js.addLeadingZeros (day - 1) 2 ++ "/" ++ Js.addLeadingZeros month 2 ++ "/"
        ++ Js.addLeadingZeros year 4)%string).
Proof.
  intros tz exam year month day H Hy.
  rewrite (dateCell_calendar _ _ _ _ _ H).
  destruct (calendarDate_valid _ _ _ _ H) as [Hv _].
  unfold Js.format_dd_MM_yyyy. split.
  - intros Htz.
    replace ((daysFromCivil year month day * msPerDay + tz) / msPerDay)
      with (daysFromCivil year month day)
      by (unfold msPerDay, msPerHour in *; Z.to_euclidean_division_equations; lia).
    rewrite (civilFromDays_daysFromCivil _ _ _ Hv).
    apply Z.ltb_lt in Hy. now rewrite Hy.
  - intros Htz Hd.
    replace ((daysFromCivil year month day * msPerDay + tz) / msPerDay)
      with (daysFromCivil year month (day - 1))
      by (unfold daysFromCivil, msPerDay, msPerHour in *;
          Z.to_euclidean_division_equations; lia).
    assert (Hv' : validateDate year month (day - 1) = true).
    { unfold validateDate in *. rewrite !andb_true_iff, !Z.leb_le in *. lia. }
    rewrite (civilFromDays_daysFromCivil _ _ _ Hv').
    apply Z.ltb_lt in Hy. now rewrite Hy.
Qed.

Lemma dateCell_shows_local_day_witness :
  ExamTable.dateCell (-18000000) Samples.exam_2024_01_10 = "09/01/2024".
Proof.
  apply (dateCell_shows_local_day (-18000000) Samples.exam_2024_01_10 2024 1 10).
  - reflexivity.
  - lia.
  - unfold msPerDay, msPerHour. lia.
  - lia.
Defined.

(** ** The order of the rows *)

Section SortByKey.

Variable A : Type.
Variable compareFn : A -> A -> number.
Variable key : A -> Z.
Variable readable : A -> Prop.
Hypothesis compareFn_key :
  forall a b, readable a -> readable b -> Js.isPositive (compareFn a b) = (key b <? key a).

Lemma insertBy_perm (x : A) (l : list A) :
  Permutation (Js.insertBy compareFn x l) (x :: l).
Proof.
  induction l as [|y l IH]; simpl; [apply Permutation_refl|].
  destruct (Js.isPositive (compareFn x y)); [|apply Permutation_refl].
  eapply Permutation_trans; [apply perm_skip, IH | apply perm_swap].
Qed.

Lemma sort_perm (l : list A) : Permutation (Js.sort compareFn l) l.
Proof.
  induction l as [|x l IH]; simpl; [constructor|].
  eapply Permutation_trans; [apply insertBy_perm | now apply perm_skip].
Qed.

Lemma insertBy_In (x y : A) (l : list A) :
  In y (Js.insertBy compareFn x l) -> y = x \/ In y l.
Proof.
  intros H. apply (Permutation_in _ (insertBy_perm x l)) in H.
  destruct H as [<-|H]; auto.
Qed.

Lemma insertBy_sorted (x : A) (l : list A) :
  readable x -> Forall readable l ->
  StronglySorted (fun a b => key a <= key b) l ->
  StronglySorted (fun a b => key a <= key b) (Js.insertBy compareFn x l).
Proof.
  intros Hx Hall Hs. induction l as [|y l IH]; simpl.
  - repeat constructor.
  - inversion Hall as [|? ? Hy Hall']; subst.
    inversion Hs as [|? ? Hs' Hy']; subst.
    rewrite (compareFn_key x y Hx Hy).
    destruct (Z.ltb_spec (key y) (key x)) as [Hlt|Hge].
    + constructor; [now apply IH|].
      apply Forall_forall. intros z Hz. apply insertBy_In in Hz.
      destruct Hz as [->|Hz]; [lia|].
      rewrite Forall_forall in Hy'. now apply Hy'.
    + constructor; [constructor; assumption|].
      constructor; [exact Hge|].
      rewrite Forall_forall in *. intros z Hz. specialize (Hy' z Hz). lia.
Qed.

Lemma sort_sorted (l : list A) :
  Forall readable l ->
  StronglySorted (fun a b => key a <= key b) (Js.sort compareFn l).
Proof.
  induction l as [|x l IH]; intros Hall; simpl; [constructor|].
  inversion Hall as [|? ? Hx Hall']; subst.
  apply insertBy_sorted; auto.
  rewrite Forall_forall in *. intros z Hz.
  apply Hall', (Permutation_in _ (sort_perm l)), Hz.
Qed.

Lemma insertBy_stable (k : Z) (x : A) (l : list A) :
  readable x -> Forall readable l ->
  filter (fun a => key a =? k) (Js.insertBy compareFn x l)
  = filter (fun a => key a =? k) (x :: l).
Proof.
  intros Hx Hall. induction l as [|y l IH]; [reflexivity|].
  inversion Hall as [|? ? Hy Hall']; subst.
  simpl Js.insertBy. rewrite (compareFn_key x y Hx Hy).
  destruct (Z.ltb_spec (key y) (key x)) as [Hlt|Hge]; [|reflexivity].
  simpl filter at 1. rewrite (IH Hall'). simpl.
  destruct (Z.eqb_spec (key x) k), (Z.eqb_spec (key y) k); try reflexivity. lia.
Qed.

Lemma sort_stable (k : Z) (l : list A) :
  Forall readable l ->
  filter (fun a => key a =? k) (Js.sort compareFn l) = filter (fun a => key a =? k) l.
Proof.
  induction l as [|x l IH]; intros Hall; [reflexivity|].
  inversion Hall as [|? ? Hx Hall']; subst.
  simpl Js.sort. rewrite insertBy_stable; auto.
  - simpl. now rewrite (IH Hall').
  - rewrite Forall_forall in *. intros z Hz.
    apply Hall', (Permutation_in _ (sort_perm l)), Hz.
Qed.

End SortByKey.

Lemma sortedExams_compare (a b : Exam) :
  calendarDate (Server.date a) <> None ->
  calendarDate (Server.date b) <> None ->
  Js.isPositive (Js.minus (ExamTable.getTime (Server.date a)) (ExamTable.getTime (Server.date b)))
  = (ExamTable.examDay b <? ExamTable.examDay a).
Proof.
  unfold ExamTable.getTime, ExamTable.examDay.
  destruct (calendarDate (Server.date a)) as [[[ya ma] da]|]; [|congruence].
  destruct (calendarDate (Server.date b)) as [[[yb mb] db]|]; [|congruence].
  intros _ _. simpl. apply Bool.eq_iff_eq_true. rewrite !Z.ltb_lt.
  unfold msPerDay, msPerHour. lia.
Qed.

(** X11: the rows are the exams, each once, and when every date is a calendar
    date they are in the order of their dates, exams of the same day
    keeping the order they came in. *)
Theorem sortedExams_ordered :
  forall exams : list Exam,
    Permutation (ExamTable.sortedExams exams) exams /\
    ((forall e, In e exams -> calendarDate (Server.date e) <> None) ->
     StronglySorted (fun a b => ExamTable.examDay a <= ExamTable.examDay b)
                    (ExamTable.sortedExams exams) /\
     forall k, filter (fun e => ExamTable.examDay e =? k) (ExamTable.sortedExams exams)
               = filter (fun e => ExamTable.examDay e =? k) exams).
Proof.
  intros exams. split; [apply sort_perm|].
  intros Hall. apply Forall_forall in Hall.
  split; [|intros k].
  - apply (sort_sorted Exam _ ExamTable.examDay
                       (fun e => calendarDate (Server.date e) <> None));
      [exact sortedExams_compare | exact Hall].
  - apply (sort_stable Exam _ ExamTable.examDay
                       (fun e => calendarDate (Server.date e) <> None));
      [exact sortedExams_compare | exact Hall].
Qed.

Example sortedExams_sample :
  map id (ExamTable.sortedExams
            [Samples.exam_2024_01_10; Samples.exam_2024_01_15;
             Samples.exam_2024_01_08; Samples.exam_2024_01_09])
  = [4; 5; 1; 2].
Proof. reflexivity. Qed.

(** ** The name of a subject *)

Lemma toLowerChar_idempotent (c : ascii) :
  Js.toLowerChar (Js.toLowerChar c) = Js.toLowerChar c.
Proof.
  destruct c as [[|] [|] [|] [|] [|] [|] [|] [|]]; reflexivity.
Qed.

Lemma toLowerCase_idempotent (s : string) :
  Js.toLowerCase (Js.toLowerCase s) = Js.toLowerCase s.
Proof.
  induction s as [|c s IH]; [reflexivity|].
  simpl. now rewrite toLowerChar_idempotent, IH.
Qed.

(** Of the names an object inherits, a lower-case key can only meet the two
    that have no capital letter. *)
Lemma inherited_lower_case (s : string) :
  existsb (String.eqb (Js.toLowerCase s)) ExamTable.inheritedNames = true ->
  Js.toLowerCase s = "constructor" \/ Js.toLowerCase s = "__proto__".
Proof.
  intros H. apply existsb_exists in H. destruct H as [name [Hin Heq]].
  apply String.eqb_eq in Heq.
  pose proof (toLowerCase_idempotent s) as Hidem. rewrite Heq in Hidem.
  simpl in Hin.
  repeat (destruct Hin as [<-|Hin]; [try discriminate Hidem; auto|]).
  destruct Hin.
Qed.

Lemma ownProperty_In (table : list (string * string)) (key value : string) :
  ExamTable.ownProperty table key = Some value -> In key (map fst table).
Proof.
  induction table as [|[name v] table IH]; simpl; [discriminate|].
  destruct (String.eqb_spec name key); [now left | right; auto].
Qed.

Lemma getArabicSubject_known (s key name : string) :
  In (key, name) ExamTable.subjects ->
  Js.toLowerCase s = key ->
  ExamTable.getArabicSubject s = ExamTable.Label name.
Proof.
  intros Hin Hs. unfold ExamTable.getArabicSubject. rewrite Hs.
  simpl in Hin.
  repeat (destruct Hin as [[= <- <-]|Hin]; [reflexivity|]).
  destruct Hin.
Qed.

(** X12: the name shown for a subject does not depend on the case of its
    letters when the table has the subject: two spellings that differ in
    case only show the same Arabic name.  A subject the table lacks is
    shown as it is written, unless its lower-case form is "constructor" or
    "__proto__". *)
Theorem getArabicSubject_ignores_case :
  (forall a b : string,
      Js.toLowerCase a = Js.toLowerCase b ->
      In (Js.toLowerCase a) (map fst ExamTable.subjects) ->
      ExamTable.getArabicSubject a = ExamTable.getArabicSubject b /\
      exists name, In (Js.toLowerCase a, name) ExamTable.subjects /\
                   ExamTable.getArabicSubject a = ExamTable.Label name) /\
  (forall s : string,
      ~ In (Js.toLowerCase s) (map fst ExamTable.subjects) ->
      Js.toLowerCase s <> "constructor" ->
      Js.toLowerCase s <> "__proto__" ->
      ExamTable.getArabicSubject s = ExamTable.Label s).
Proof.
  split.
  - intros a b Hab Hin.
    apply in_map_iff in Hin. destruct Hin as [[key name] [Hkey Hin]].
    simpl in Hkey. subst key.
    rewrite (getArabicSubject_known a _ name Hin eq_refl).
    rewrite (getArabicSubject_known b _ name Hin (eq_sym Hab)).
    split; [reflexivity|]. now exists name.
  - intros s Hnot Hc Hp.
    unfold ExamTable.getArabicSubject, ExamTable.getProperty.
    destruct (ExamTable.ownProperty ExamTable.subjects (Js.toLowerCase s)) as [v|] eqn:Hown.
    + exfalso. apply Hnot. exact (ownProperty_In _ _ _ Hown).
    + destruct (existsb _ ExamTable.inheritedNames) eqn:Hinh; [|reflexivity].
      destruct (inherited_lower_case s Hinh); contradiction.
Qed.

Example getArabicSubject_samples :
  ExamTable.getArabicSubject "MATH" = ExamTable.Label "الرياضيات" /\
  ExamTable.getArabicSubject "Math" = ExamTable.Label "الرياضيات" /\
  ExamTable.getArabicSubject "history" = ExamTable.Label "history" /\
  ExamTable.getArabicSubject "Constructor" = ExamTable.PrototypeMember.
Proof. repeat split. Qed.

(** ** When the cell says today *)

(** X14: for an exam whose date is a calendar date, the remaining-days cell says
    "اليوم" exactly when less than 24 hours are left before the local
    midnight that begins the exam's date: so also on the whole day before
    the exam, its first instant apart, and on every day after it. *)
Theorem cell_says_today_within_a_day :
  forall (tz now : Z) (exam : Exam) (year month day : Z),
    calendarDate (Server.date exam) = Some (year, month, day) ->
    ExamWeek.remainingDaysCell (ExamWeek.remainingDays tz now exam) = ExamWeek.todayText <->
    daysFromCivil year month day * msPerDay - tz - now < msPerDay.
Proof.
  intros tz now exam year month day H.
  destruct (calendarDate_valid _ _ _ _ H) as [_ Hne].
  unfold ExamWeek.remainingDays.
  apply String.eqb_neq in Hne. rewrite Hne. simpl negb. cbv iota.
  rewrite (calculateRemainingDays_calendar _ _ _ _ _ _ H).
  set (left := daysFromCivil year month day * msPerDay - tz - now).
  unfold ExamWeek.remainingDaysCell, ExamWeek.truthy, ExamWeek.greaterThanZero.
  destruct (Z.ltb_spec 0 (left ÷ msPerDay)) as [Hpos|Hle].
  - replace (left ÷ msPerDay =? 0) with false by (symmetry; apply Z.eqb_neq; lia).
    simpl. split.
    + intros Heq. exfalso. exact (daysText_not_todayText _ Heq).
    + intros Hlt. exfalso. unfold msPerDay, msPerHour in *.
      Z.to_euclidean_division_equations; lia.
  - rewrite andb_false_r. split; [|reflexivity].
    intros _. unfold msPerDay, msPerHour in *.
    Z.to_euclidean_division_equations; lia.
Qed.

Lemma cell_says_today_within_a_day_witness :
  ExamWeek.remainingDaysCell (ExamWeek.remainingDays 0 Samples.noon_2024_01_10 Samples.exam_2024_01_10)
  = ExamWeek.todayText <->
  daysFromCivil 2024 1 10 * msPerDay - 0 - Samples.noon_2024_01_10 < msPerDay.
Proof.
  apply (cell_says_today_within_a_day 0 Samples.noon_2024_01_10 Samples.exam_2024_01_10 2024 1 10).
  reflexivity.
Defined.

(** At one millisecond past midnight an exam of the next day is shown as
    today. *)
Example exam_of_tomorrow_shown_as_today :
  ExamWeek.remainingDaysCell
    (ExamWeek.remainingDays 0 (daysFromCivil 2024 1 9 * msPerDay + 1) Samples.exam_2024_01_10)
  = ExamWeek.todayText.
Proof. reflexivity. Qed.

(** ** Reading a number back: [parseInt] *)

Lemma leadingDigits_acc (d : Decimal.uint) :
  forall (acc : positive) (z : Z),
    z = Z.pos acc ->
    Js.leadingDigits 10 (Int z) (NilEmpty.string_of_uint d)
    = Int (Z.pos (Pos.of_uint_acc d acc)).
Proof.
  induction d; intros acc z ->; cbn [NilEmpty.string_of_uint Js.leadingDigits Pos.of_uint_acc];
    [reflexivity | ..];
    match goal with
    | |- context [Js.radixDigit 10 ?c] =>
        let v := eval vm_compute in (Js.radixDigit 10 c) in
        change (Js.radixDigit 10 c) with v
    end;
    cbv iota beta; apply IHd; lia.
Qed.

Lemma leadingDigits_zero (d : Decimal.uint) :
  Js.leadingDigits 10 (Int 0) (NilEmpty.string_of_uint d) = Int (Z.of_N (Pos.of_uint d)).
Proof.
  induction d; cbn [NilEmpty.string_of_uint Js.leadingDigits Pos.of_uint];
    [reflexivity | ..];
    match goal with
    | |- context [Js.radixDigit 10 ?c] =>
        let v := eval vm_compute in (Js.radixDigit 10 c) in
        change (Js.radixDigit 10 c) with v
    end;
    cbv iota beta; first [exact IHd | apply leadingDigits_acc; reflexivity].
Qed.

(** A string of decimal digits, read from the start with no digit read yet. *)
Lemma leadingDigits_start (d : Decimal.uint) :
  d <> Decimal.Nil ->
  Js.leadingDigits 10 NaN (NilEmpty.string_of_uint d) = Int (Z.of_N (Pos.of_uint d)).
Proof.
  intros Hd. rewrite <- leadingDigits_zero.
  destruct d; [congruence | ..]; reflexivity.
Qed.

(** [parseInt] on the digits of a positive number, whatever sign was read
    before them. *)
Lemma parseInt_digits (p : positive) :
  let digits := NilEmpty.string_of_uint (Pos.to_uint p) in
  Js.parseInt digits = Int (Z.pos p) /\
  Js.parseInt (String "-"%char digits) = Int (Z.neg p).
Proof.
  intros digits.
  assert (Hnil : Pos.to_uint p <> Decimal.Nil) by apply Unsigned.to_uint_nonnil.
  assert (Hread : Js.leadingDigits 10 NaN digits = Int (Z.pos p)).
  { subst digits. rewrite (leadingDigits_start _ Hnil), Unsigned.of_to. reflexivity. }
  assert (Hshape : exists c rest,
             digits = String c rest /\
             AddExamModal.isWhiteSpace c = false /\
             Ascii.eqb c "-"%char = false /\ Ascii.eqb c "+"%char = false /\
             match rest with
             | String c1 _ => Ascii.eqb c1 "x"%char = false /\ Ascii.eqb c1 "X"%char = false
             | EmptyString => True
             end).
  { subst digits. destruct (Pos.to_uint p) as [|d|d|d|d|d|d|d|d|d|d]; [congruence | ..];
      (eexists; eexists; split; [reflexivity|]; repeat split;
       destruct d; simpl; auto). }
  destruct Hshape as [c [rest [Heq [Hws [Hminus [Hplus Hx]]]]]].
  rewrite Heq in *. clear Heq.
  split.
  - unfold Js.parseInt. cbn [AddExamModal.trimStart]. rewrite Hws, Hminus, Hplus.
    cbv iota beta.
    destruct rest as [|c1 rest'].
    + cbv iota beta. rewrite Hread. reflexivity.
    + destruct Hx as [Hx1 Hx2]. rewrite Hx1, Hx2, andb_false_r.
      cbv iota beta. rewrite Hread. reflexivity.
  - unfold Js.parseInt. cbn [AddExamModal.trimStart].
    change (AddExamModal.isWhiteSpace "-"%char) with false. cbv iota.
    change (Ascii.eqb "-"%char "-"%char) with true. cbv iota beta.
    destruct rest as [|c1 rest'].
    + cbv iota beta. rewrite Hread. reflexivity.
    + destruct Hx as [Hx1 Hx2]. rewrite Hx1, Hx2, andb_false_r.
      cbv iota beta. rewrite Hread. reflexivity.
Qed.

Lemma parseInt_toText (n : Z) : Js.parseInt (ExamWeek.toText (Some (Int n))) = Int n.
Proof.
  unfold ExamWeek.toText.
  destruct n as [|p|p]; [reflexivity | |].
  - cbn [Z.to_int NilZero.string_of_int].
    unfold NilZero.string_of_uint.
    pose proof (Unsigned.to_uint_nonnil p) as Hnil.
    destruct (parseInt_digits p) as [H _].
    destruct (Pos.to_uint p); [congruence | ..]; exact H.
  - cbn [Z.to_int NilZero.string_of_int].
    unfold NilZero.string_of_uint.
    pose proof (Unsigned.to_uint_nonnil p) as Hnil.
    destruct (parseInt_digits p) as [_ H].
    destruct (Pos.to_uint p); [congruence | ..]; exact H.
Qed.

(** An integer a number holds exactly, written in decimal as a template
    literal writes it, is read back by [parseInt] as the same integer. *)
Theorem parseInt_reads_back :
  forall n : Z,
    Z.abs n <= Js.MAX_SAFE_INTEGER ->
    Js.parseInt (ExamWeek.toText (Some (Int n))) = Int n.
Proof. intros n _. apply parseInt_toText. Qed.

Lemma parseInt_reads_back_witness :
  Js.parseInt (ExamWeek.toText (Some (Int (-2024)))) = Int (-2024).
Proof.
  apply (parseInt_reads_back (-2024)). unfold Js.MAX_SAFE_INTEGER. lia.
Defined.

(** What [parseInt] makes of other texts. *)
Example parseInt_samples :
  Js.parseInt "12abc" = Int 12 /\ Js.parseInt "  -7" = Int (-7) /\
  Js.parseInt "0x1f" = Int 31 /\ Js.parseInt "" = NaN /\ Js.parseInt "abc" = NaN /\
  Js.parseInt "1e3" = Int 1.
Proof. repeat split. Qed.

(** ** Deleting an exam by its id *)

Lemma filter_none_has_id (n : Z) (l : list Exam) :
  existsb (hasId n) l = false -> filter (fun exam => negb (hasId n exam)) l = l.
Proof.
  induction l as [|x l IH]; [reflexivity|].
  simpl. intros H. apply orb_false_iff in H. destruct H as [Hx Hl].
  rewrite Hx. simpl. now rewrite IH.
Qed.

Lemma filter_removes_id (n : Z) (l : list Exam) :
  existsb (hasId n) (filter (fun exam => negb (hasId n exam)) l) = false.
Proof.
  induction l as [|x l IH]; [reflexivity|].
  simpl. destruct (hasId n x) eqn:E; simpl; [exact IH|]. now rewrite E.
Qed.

(** X9: DELETE /api/exams/:id on a store that does not fail, for an id that
    reads as a number: the answer is 200 when a record carries the id and
    404 when none does; the records left are those with another id, in
    their order, so a 404 changes nothing; and the same request made again
    is answered 404. *)
Theorem deleteExamRoute_answers :
  forall (m : Machine) (idParam : string) (n : Z) (w : World),
    Js.parseInt idParam = Int n ->
    Z.abs n <= Js.MAX_SAFE_INTEGER ->
    deleteExamFails m n = false ->
    let '(reply, w', logged) := ExamRoutes.deleteExamRoute m idParam w in
    logged = [] /\
    store w' = filter (fun exam => negb (hasId n exam)) (store w) /\
    console w' = console w /\
    (ExamRoutes.statusCode reply = 200 <-> exists x, In x (store w) /\ id x = n) /\
    (ExamRoutes.statusCode reply = 404 <-> forall x, In x (store w) -> id x <> n) /\
    (ExamRoutes.statusCode reply = 404 -> store w' = store w) /\
    ExamRoutes.deleteExamRoute m idParam w' = (ExamRoutes.Json 404 "Exam not found", w', []).
Proof.
  intros m idParam n w Hparse _ Hok.
  unfold ExamRoutes.deleteExamRoute. rewrite Hparse.
  unfold ExamRoutes.deleteExamNumber, deleteExam. rewrite Hok. cbv iota beta.
  assert (Hagain : filter (fun exam => negb (hasId n exam))
                          (filter (fun exam => negb (hasId n exam)) (store w))
                   = filter (fun exam => negb (hasId n exam)) (store w))
    by (apply filter_none_has_id, filter_removes_id).
  destruct (existsb (hasId n) (store w)) eqn:E; cbn [negb]; cbv iota beta;
    cbn [store console clockReads];
    rewrite filter_removes_id; cbn [negb]; rewrite Hagain.
  - apply existsb_exists in E. destruct E as [x [Hx Hid]].
    unfold hasId in Hid. apply Z.eqb_eq in Hid.
    cbn [ExamRoutes.statusCode].
    split; [reflexivity|]. split; [reflexivity|]. split; [reflexivity|].
    split; [split; [intros _; now exists x | reflexivity]|].
    split; [split; [discriminate | intros Hnone; exfalso; exact (Hnone x Hx Hid)]|].
    split; [discriminate | reflexivity].
  - assert (Hnone : forall x, In x (store w) -> id x <> n).
    { intros x Hx Hid.
      assert (existsb (hasId n) (store w) = true)
        by (apply existsb_exists; exists x; split; [exact Hx | now apply Z.eqb_eq]).
      congruence. }
    cbn [ExamRoutes.statusCode].
    split; [reflexivity|]. split; [reflexivity|]. split; [reflexivity|].
    split; [split; [discriminate | intros [x [Hx Hid]]; exfalso; exact (Hnone x Hx Hid)]|].
    split; [split; [intros _; exact Hnone | reflexivity]|].
    split; [intros _; apply filter_none_has_id, E | reflexivity].
Qed.

Lemma deleteExamRoute_answers_witness :
  let '(reply, w', logged) :=
    ExamRoutes.deleteExamRoute (Samples.sound Samples.at_11_00) "1"
      (Samples.fresh [Samples.exam_2024_01_10; Samples.exam_2024_01_15]) in
  logged = [] /\
  store w' = filter (fun exam => negb (hasId 1 exam)) [Samples.exam_2024_01_10; Samples.exam_2024_01_15] /\
  console w' = [] /\
  (ExamRoutes.statusCode reply = 200 <->
   exists x, In x [Samples.exam_2024_01_10; Samples.exam_2024_01_15] /\ id x = 1) /\
  (ExamRoutes.statusCode reply = 404 <->
   forall x, In x [Samples.exam_2024_01_10; Samples.exam_2024_01_15] -> id x <> 1) /\
  (ExamRoutes.statusCode reply = 404 ->
   store w' = [Samples.exam_2024_01_10; Samples.exam_2024_01_15]) /\
  ExamRoutes.deleteExamRoute (Samples.sound Samples.at_11_00) "1" w'
  = (ExamRoutes.Json 404 "Exam not found", w', []).
Proof.
  apply (deleteExamRoute_answers
           (Samples.sound Samples.at_11_00) "1" 1
           (Samples.fresh [Samples.exam_2024_01_10; Samples.exam_2024_01_15]));
    [reflexivity | unfold Js.MAX_SAFE_INTEGER; lia | reflexivity].
Defined.

(** A failure of the store and an id that is no number. *)
Example deleteExamRoute_edges :
  ExamRoutes.deleteExamRoute (Samples.flaky Samples.at_11_00) "4" (Samples.fresh [Samples.exam_2024_01_08])
  = (ExamRoutes.Json 500 "Failed to delete exam", Samples.fresh [Samples.exam_2024_01_08],
     [ExamRoutes.LogDeleteExamError StoreError]) /\
  ExamRoutes.deleteExamRoute (Samples.sound Samples.at_11_00) "abc" (Samples.fresh [Samples.exam_2024_01_08])
  = (ExamRoutes.Json 404 "Exam not found", Samples.fresh [Samples.exam_2024_01_08], []).
Proof. split; reflexivity. Qed.

Lemma nextId_above (l : list Exam) (x : Exam) : In x l -> id x < nextId l.
Proof.
  unfold nextId. induction l as [|a l IH]; intros H; [destruct H|].
  cbn [fold_right]. destruct H as [->|H]; [lia|]. specialize (IH H). lia.
Qed.

(** X10: an exam the creation route has stored is removed again by the deletion
    route called with its id in decimal, and the records are as before the
    two requests. *)
Theorem create_then_delete :
  forall (m : Machine) (body : ExamBody) (w w1 : World) (exam : Exam),
    postExam m insertExamSchema body w = (Returned (Json201 exam), w1) ->
    Z.abs (id exam) <= Js.MAX_SAFE_INTEGER ->
    deleteExamFails m (id exam) = false ->
    ExamRoutes.deleteExamRoute m (ExamWeek.toText (Some (Int (id exam)))) w1
    = (ExamRoutes.Json 200 "Exam deleted successfully", w, []).
Proof.
  intros m body w w1 exam Hpost _ Hok.
  destruct (insertExamSchema body) as [data|] eqn:E.
  - rewrite (postExam_accepted _ _ _ _ _ E) in Hpost.
    destruct (createExamFails m); [discriminate|].
    cbv zeta in Hpost. inversion Hpost; subst; clear Hpost.
    unfold ExamRoutes.deleteExamRoute. rewrite parseInt_toText.
    unfold ExamRoutes.deleteExamNumber, deleteExam.
    cbn [id] in *. rewrite Hok. cbn [store console clockReads].
    set (n := nextId (store w)) in *.
    set (new := {| id := n; Server.subject := newSubject data;
                   Server.date := newDate data; Server.topics := newTopics data |}).
    assert (Hold : existsb (hasId n) (store w) = false).
    { destruct (existsb (hasId n) (store w)) eqn:Ex; [|reflexivity].
      apply existsb_exists in Ex. destruct Ex as [x [Hx Hid]].
      unfold hasId in Hid. apply Z.eqb_eq in Hid.
      pose proof (nextId_above _ _ Hx). subst n. lia. }
    rewrite existsb_app, Hold. simpl existsb. unfold hasId at 1. cbn [id].
    rewrite Z.eqb_refl. cbn [orb negb].
    rewrite filter_app, (filter_none_has_id _ _ Hold). simpl filter.
    unfold hasId at 1. cbn [id]. rewrite Z.eqb_refl. cbn [negb].
    rewrite app_nil_r. now destruct w.
  - rewrite (postExam_rejected _ _ _ _ E) in Hpost. discriminate.
Qed.

Lemma create_then_delete_witness :
  ExamRoutes.deleteExamRoute (Samples.sound Samples.at_11_00)
    (ExamWeek.toText (Some (Int (id Samples.exam_2024_01_10))))
    (Samples.fresh [Samples.exam_2024_01_10])
  = (ExamRoutes.Json 200 "Exam deleted successfully", Samples.fresh [], []).
Proof.
  apply (create_then_delete
           (Samples.sound Samples.at_11_00)
           (AddExamModal.bodyOf Samples.insert_2024_01_10)
           (Samples.fresh []) (Samples.fresh [Samples.exam_2024_01_10])
           Samples.exam_2024_01_10);
    [reflexivity | unfold Js.MAX_SAFE_INTEGER; simpl; lia | reflexivity].
Defined.

(** ** The lines of the topics *)

Lemma trimStart_empty_iff (s : string) :
  AddExamModal.trimStart s = "" <->
  forallb AddExamModal.isWhiteSpace (list_ascii_of_string s) = true.
Proof.
  induction s as [|c s IH]; simpl; [tauto|].
  destruct (AddExamModal.isWhiteSpace c); simpl; [exact IH|].
  split; discriminate.
Qed.

Lemma trimStart_head (s : string) (c : ascii) (rest : string) :
  AddExamModal.trimStart s = String c rest -> AddExamModal.isWhiteSpace c = false.
Proof.
  induction s as [|a s IH]; simpl; [discriminate|].
  destruct (AddExamModal.isWhiteSpace a) eqn:E; [exact IH|].
  now intros [= <- _].
Qed.

Lemma trimEnd_head (c : ascii) (rest : string) :
  AddExamModal.isWhiteSpace c = false -> AddExamModal.trimEnd (String c rest) <> "".
Proof.
  intros H. simpl. destruct (AddExamModal.trimEnd rest); [rewrite H|]; discriminate.
Qed.

(** A string trims to nothing exactly when it holds white space only. *)
Lemma trim_empty_iff (s : string) :
  AddExamModal.trim s = "" <->
  forallb AddExamModal.isWhiteSpace (list_ascii_of_string s) = true.
Proof.
  unfold AddExamModal.trim. rewrite <- trimStart_empty_iff.
  destruct (AddExamModal.trimStart s) as [|c rest] eqn:E; [simpl; tauto|].
  split; [|discriminate].
  intros H. exfalso. exact (trimEnd_head c rest (trimStart_head _ _ _ E) H).
Qed.

Lemma split_not_nil (sep : ascii) (s : string) : AddExamModal.split sep s <> [].
Proof.
  destruct s as [|c s]; simpl; [discriminate|].
  destruct (Ascii.eqb c sep); [discriminate|].
  destruct (AddExamModal.split sep s); discriminate.
Qed.

(** Joining the pieces of a split with the separator gives the string back. *)
Lemma join_split (sep : ascii) (s : string) :
  Js.join (String sep EmptyString) (AddExamModal.split sep s) = s.
Proof.
  induction s as [|c s IH]; [reflexivity|].
  simpl AddExamModal.split.
  pose proof (split_not_nil sep s) as Hne.
  destruct (Ascii.eqb_spec c sep) as [->|Hc].
  - destruct (AddExamModal.split sep s) as [|p ps]; [congruence|].
    change (Js.join (String sep "") ("" :: p :: ps))
      with (String sep (Js.join (String sep "") (p :: ps))).
    now rewrite IH.
  - destruct (AddExamModal.split sep s) as [|p ps]; [congruence|].
    destruct ps as [|q ps].
    + simpl in *. now rewrite IH.
    + change (Js.join (String sep "") (String c p :: q :: ps))
        with (String c (p ++ String sep "" ++ Js.join (String sep "") (q :: ps)))%string.
      change (Js.join (String sep "") (p :: q :: ps))
        with (p ++ String sep "" ++ Js.join (String sep "") (q :: ps))%string in IH.
      now rewrite IH.
Qed.

(** No piece of a split holds the separator. *)
Lemma split_no_separator (sep : ascii) (s : string) :
  Forall (fun piece => ~ In sep (list_ascii_of_string piece)) (AddExamModal.split sep s).
Proof.
  induction s as [|c s IH]; simpl; [repeat constructor; auto|].
  destruct (Ascii.eqb_spec c sep) as [->|Hc]; [constructor; auto|].
  destruct (AddExamModal.split sep s) as [|p ps]; [repeat constructor; simpl; tauto|].
  inversion IH as [|? ? Hp Hps]; subst.
  constructor; [|exact Hps]. simpl. intros [H|H]; auto.
Qed.

(** A text holds white space only exactly when each of its lines does. *)
Lemma split_blank (s : string) :
  forallb AddExamModal.isWhiteSpace (list_ascii_of_string s) = true <->
  Forall (fun piece => forallb AddExamModal.isWhiteSpace (list_ascii_of_string piece) = true)
         (AddExamModal.split AddExamModal.newline s).
Proof.
  induction s as [|c s IH]; simpl; [split; [repeat constructor | reflexivity]|].
  pose proof (split_not_nil AddExamModal.newline s) as Hne.
  destruct (Ascii.eqb_spec c AddExamModal.newline) as [->|Hc].
  - change (AddExamModal.isWhiteSpace AddExamModal.newline) with true. simpl.
    rewrite IH. split; [intros H; constructor; auto | intros H; now inversion H].
  - destruct (AddExamModal.split AddExamModal.newline s) as [|p ps]; [congruence|].
    rewrite andb_true_iff, IH. split.
    + intros [Hc' H]. inversion H; subst. constructor; [simpl; now rewrite Hc'|assumption].
    + intros H. inversion H as [|? ? Hp Hps]; subst. simpl in Hp.
      apply andb_true_iff in Hp. destruct Hp. split; [assumption|]. now constructor.
Qed.

Lemma filter_nil_iff {A : Type} (f : A -> bool) (l : list A) :
  filter f l = [] <-> Forall (fun x => f x = false) l.
Proof.
  induction l as [|x l IH]; simpl; [split; [constructor | reflexivity]|].
  destruct (f x) eqn:E.
  - split; [discriminate | intros H; inversion H; congruence].
  - rewrite IH. split; [intros H; now constructor | intros H; now inversion H].
Qed.

(** The lines of the topics that are kept: none when the text is white
    space only. *)
Lemma topicsArray_empty_iff (s : string) :
  filter (fun topic => AddExamModal.nonEmpty (AddExamModal.trim topic))
         (AddExamModal.split AddExamModal.newline s) = [] <->
  forallb AddExamModal.isWhiteSpace (list_ascii_of_string s) = true.
Proof.
  rewrite filter_nil_iff, split_blank.
  split; intros H; eapply Forall_impl; try exact H; cbv beta; intros piece Hp.
  - apply trim_empty_iff. now apply nonEmpty_false.
  - apply nonEmpty_false. now apply trim_empty_iff.
Qed.

(** X16: for topics written in ASCII, the form hands an exam to [addExam]
    exactly when the subject and the date are not empty and the topics hold
    a character that is not white space. *)
Theorem handleSubmit_submits_iff :
  forall (addExam : InsertExam -> bool) (st : AddExamModal.FormState),
    Js.isAscii (AddExamModal.topics st) = true ->
    AddExamModal.requests (AddExamModal.handleSubmit addExam st) = [] <->
    AddExamModal.subject st = "" \/ AddExamModal.date st = "" \/
    forallb AddExamModal.isWhiteSpace (list_ascii_of_string (AddExamModal.topics st)) = true.
Proof.
  intros addExam st _. unfold AddExamModal.handleSubmit.
  destruct (AddExamModal.nonEmpty (AddExamModal.subject st)) eqn:Hs;
    [|apply nonEmpty_false in Hs; simpl; tauto].
  destruct (AddExamModal.nonEmpty (AddExamModal.date st)) eqn:Hd;
    [|apply nonEmpty_false in Hd; simpl; tauto].
  apply nonEmpty_true in Hs, Hd.
  destruct (AddExamModal.nonEmpty (AddExamModal.topics st)) eqn:Ht; simpl.
  - set (topicsArray := filter _ _).
    pose proof (topicsArray_empty_iff (AddExamModal.topics st)) as Hblank.
    fold topicsArray in Hblank.
    destruct topicsArray as [|t ts] eqn:Harr.
    + simpl. split; [intros _; right; right; now apply Hblank | reflexivity].
    + simpl. destruct (addExam _); simpl; (split; [discriminate|]);
        intros [H|[H|H]]; try contradiction; apply Hblank in H; discriminate.
  - apply nonEmpty_false in Ht. rewrite Ht. simpl. tauto.
Qed.

Lemma handleSubmit_submits_iff_witness :
  AddExamModal.requests (AddExamModal.handleSubmit (fun _ => true) Samples.form_unparseable) = [] <->
  AddExamModal.subject Samples.form_unparseable = "" \/
  AddExamModal.date Samples.form_unparseable = "" \/
  forallb AddExamModal.isWhiteSpace
          (list_ascii_of_string (AddExamModal.topics Samples.form_unparseable)) = true.
Proof.
  apply (handleSubmit_submits_iff (fun _ => true) Samples.form_unparseable).
  reflexivity.
Defined.

(** X17: for topics written in ASCII, the topics handed over are the lines of
    the text that are not blank, in their order and as they were typed;
    none holds a line feed, and the lines joined by line feeds are the
    text. *)
Theorem handleSubmit_topics_are_lines :
  forall (addExam : InsertExam -> bool) (st : AddExamModal.FormState) (exam : InsertExam),
    Js.isAscii (AddExamModal.topics st) = true ->
    In exam (AddExamModal.requests (AddExamModal.handleSubmit addExam st)) ->
    let lines := AddExamModal.split AddExamModal.newline (AddExamModal.topics st) in
    newTopics exam
    = filter (fun line => negb (forallb AddExamModal.isWhiteSpace (list_ascii_of_string line)))
             lines /\
    Js.join (String AddExamModal.newline EmptyString) lines = AddExamModal.topics st /\
    (forall topic, In topic (newTopics exam) ->
                   ~ In AddExamModal.newline (list_ascii_of_string topic)).
Proof.
  intros addExam st exam _ Hin lines.
  assert (Htopics : newTopics exam
                    = filter (fun topic => AddExamModal.nonEmpty (AddExamModal.trim topic)) lines).
  { revert Hin. unfold AddExamModal.handleSubmit.
    destruct (negb _ || negb _ || negb _); [intros []|].
    fold lines. set (topicsArray := filter _ lines).
    destruct (Nat.eqb (List.length topicsArray) 0); [intros []|].
    destruct (addExam _); simpl; intros [<-|[]]; reflexivity. }
  split; [|split].
  - rewrite Htopics. apply filter_ext. intros line.
    apply Bool.eq_iff_eq_true. rewrite nonEmpty_true, negb_true_iff.
    rewrite <- Bool.not_true_iff_false, <- trim_empty_iff. tauto.
  - apply join_split.
  - intros topic Ht. rewrite Htopics in Ht. apply filter_In in Ht. destruct Ht as [Ht _].
    pose proof (split_no_separator AddExamModal.newline (AddExamModal.topics st)) as Hall.
    rewrite Forall_forall in Hall. now apply Hall.
Qed.

Lemma handleSubmit_topics_are_lines_witness :
  newTopics Samples.insert_unparseable
  = filter (fun line => negb (forallb AddExamModal.isWhiteSpace (list_ascii_of_string line)))
           (AddExamModal.split AddExamModal.newline (AddExamModal.topics Samples.form_unparseable)).
Proof.
  apply (handleSubmit_topics_are_lines (fun _ => true) Samples.form_unparseable
                                       Samples.insert_unparseable).
  - reflexivity.
  - simpl. now left.
Defined.

(** A line keeps the white space around it: only blank lines are dropped. *)
Example handleSubmit_keeps_spaces :
  AddExamModal.requests
    (AddExamModal.handleSubmit
       (fun _ => true)
       {| AddExamModal.subject := "math";
          AddExamModal.date := "2024-01-10";
          AddExamModal.topics :=
            String " " (String "a" (String " " (String AddExamModal.newline
              (String AddExamModal.newline (String "b" EmptyString))))) |})
  = [ {| newSubject := "math"; newDate := "2024-01-10"; newTopics := [" a "; "b"] |} ].
Proof. reflexivity. Qed.

(** X18: whatever the form holds, a submission shows one toast and makes at most
    one request; the dialog is closed and the fields are emptied exactly
    when a request was made and succeeded, and in every other case the
    fields are left as they were and the toast is an error. *)
Theorem handleSubmit_outcomes :
  forall (addExam : InsertExam -> bool) (st : AddExamModal.FormState),
    let r := AddExamModal.handleSubmit addExam st in
    (exists toast, AddExamModal.toasts r = [toast] /\
                   AddExamModal.destructive toast = negb (AddExamModal.closed r)) /\
    (List.length (AddExamModal.requests r) <= 1)%nat /\
    (AddExamModal.closed r = true <->
     exists exam, AddExamModal.requests r = [exam] /\ addExam exam = true) /\
    (AddExamModal.closed r = true ->
     AddExamModal.fields r
     = {| AddExamModal.subject := ""; AddExamModal.date := ""; AddExamModal.topics := "" |}) /\
    (AddExamModal.closed r = false -> AddExamModal.fields r = st).
Proof.
  intros addExam st r. subst r. unfold AddExamModal.handleSubmit.
  destruct (negb _ || negb _ || negb _).
  - simpl. split; [eexists; split; reflexivity|]. split; [lia|].
    split; [split; [discriminate | intros [e [H _]]; discriminate]|].
    split; [discriminate | reflexivity].
  - set (topicsArray := filter _ _).
    destruct (Nat.eqb (List.length topicsArray) 0).
    + simpl. split; [eexists; split; reflexivity|]. split; [lia|].
      split; [split; [discriminate | intros [e [H _]]; discriminate]|].
      split; [discriminate | reflexivity].
    + destruct (addExam _) eqn:E; simpl.
      * split; [eexists; split; reflexivity|]. split; [lia|].
        split; [split; [intros _; eexists; split; [reflexivity | exact E] | reflexivity]|].
        split; [reflexivity | discriminate].
      * split; [eexists; split; reflexivity|]. split; [lia|].
        split; [split; [discriminate | intros [e [[= <-] H]]; congruence]|].
        split; [discriminate | reflexivity].
Qed.

(** ** The count of days, for any date *)

(** X15: for an exam whose date is a calendar date, the count of remaining days
    is the difference of the calendar days, exam minus today, but one less
    for an exam ahead when the local time is past midnight: an exam
    tomorrow counts 0 and an exam of an earlier day counts the whole
    negative difference. *)
Theorem calculateRemainingDays_by_calendar :
  forall (tz now : Z) (examDate : string) (year month day : Z),
    calendarDate examDate = Some (year, month, day) ->
    let today := (now + tz) / msPerDay in
    let timeOfDay := (now + tz) mod msPerDay in
    let examDay := daysFromCivil year month day in
    ExamWeek.calculateRemainingDays tz now examDate
    = Int (if (today <? examDay) && negb (timeOfDay =? 0)
           then examDay - today - 1
           else examDay - today).
Proof.
  intros tz now examDate year month day H today timeOfDay examDay.
  rewrite (calculateRemainingDays_calendar _ _ _ _ _ _ H). fold examDay. f_equal.
  subst today timeOfDay. unfold msPerDay, msPerHour.
  destruct (Z.ltb_spec ((now + tz) / (24 * (60 * 60 * 1000))) examDay);
    destruct (Z.eqb_spec ((now + tz) mod (24 * (60 * 60 * 1000))) 0);
    cbn [andb negb]; Z.to_euclidean_division_equations; lia.
Qed.

Lemma calculateRemainingDays_by_calendar_witness :
  ExamWeek.calculateRemainingDays 0 Samples.noon_2024_01_10 "2024-01-15" = Int 4.
Proof.
  apply (calculateRemainingDays_by_calendar 0 Samples.noon_2024_01_10 "2024-01-15" 2024 1 15).
  reflexivity.
Defined.

(** ** The creation route, for any schema *)

(** X8: POST /api/exams never throws.  It answers 201 exactly when the schema
    accepts the body and the store does not fail, and then the store holds
    one record more, made of what the schema read; with any other answer
    the records are as they were, and only a failure of the store is
    written to the console. *)
Theorem postExam_outcomes :
  forall (m : Machine) (safeParse : ExamBody -> option InsertExam) (body : ExamBody) (w : World),
  exists (r : Response) (w' : World),
    postExam m safeParse body w = (Returned r, w') /\
    (status r = 201 <-> safeParse body <> None /\ createExamFails m = false) /\
    (status r = 400 <-> safeParse body = None) /\
    (forall exam, r = Json201 exam ->
                  store w' = store w ++ [exam] /\ console w' = console w /\
                  ~ In (id exam) (map id (store w)) /\
                  safeParse body
                  = Some {| newSubject := Server.subject exam; newDate := Server.date exam;
                            newTopics := Server.topics exam |}) /\
    (status r <> 201 -> store w' = store w) /\
    (status r <> 500 -> console w' = console w).
Proof.
  intros m safeParse body w.
  destruct (safeParse body) as [data|] eqn:E.
  - rewrite (postExam_accepted _ _ _ _ _ E).
    destruct (createExamFails m) eqn:F.
    + eexists. eexists. split; [reflexivity|]. simpl.
      split; [split; [discriminate | intros [_ H]; discriminate]|].
      split; [split; discriminate|].
      split; [intros exam H; discriminate|].
      split; [reflexivity | congruence].
    + eexists. eexists. split; [reflexivity|]. cbv zeta. simpl.
      split; [split; [intros _; split; [discriminate | reflexivity] | reflexivity]|].
      split; [split; discriminate|].
      split; [|split; [congruence | reflexivity]].
      intros exam [= <-]. simpl.
      split; [reflexivity|]. split; [reflexivity|]. split; [|now destruct data].
      intros Hin. apply in_map_iff in Hin. destruct Hin as [x [Hid Hx]].
      pose proof (nextId_above _ _ Hx). lia.
  - rewrite (postExam_rejected _ _ _ _ E).
    eexists. eexists. split; [reflexivity|]. simpl.
    split; [split; [discriminate | intros [H _]; congruence]|].
    split; [split; reflexivity|].
    split; [intros exam H; discriminate|].
    split; reflexivity.
Qed.
